(** * sonarsense: the servo sweep / ultrasonic telemetry server [pi_server.py]

    A shallow embedding of [get_distance], [sweep_sensor], [handler] and the
    [__main__] block, together with the properties of the angle sweep, the
    distance conversion, the published messages, the disconnect handling and
    the cleanup step. *)

From Stdlib Require Import Floats.
From Stdlib Require Import ZArith List Bool String Ascii Lia DecimalString.
Import ListNotations.

Set Warnings "-inexact-float".

Open Scope Z_scope.

(** ** Python floats

    A Python [float] is an IEEE-754 binary64 value.  The operations are the
    ones of the executable specification [SpecFloat] at precision [prec = 53]
    and maximal exponent [emax = 1024]; literals are read through [Prim2SF]. *)
Module PyFloat.

Definition t := spec_float.

Definition lit (x : float) : t := Prim2SF x.

Definition mul (x y : t) : t := SF64mul x y.
Definition sub (x y : t) : t := SF64sub x y.
Definition leb (x y : t) : bool := SFleb x y.
Definition zero : t := S754_zero false.

Definition is_finite (x : t) : bool :=
  match x with
  | S754_zero _ | S754_finite _ _ _ => true
  | S754_infinity _ | S754_nan => false
  end.

(** A binary64 value proper: a finite one has its canonical mantissa and
    exponent. *)
Definition valid (x : t) : bool := valid_binary x.

(** [n / d] rounded to the nearest integer, ties to the even one
    ([0 <= n], [0 < d]). *)
Definition div_half_even (n d : Z) : Z :=
  let q := n / d in
  match 2 * (n mod d) ?= d with
  | Lt => q
  | Gt => q + 1
  | Eq => if Z.even q then q else q + 1
  end.

(** The integer nearest to [m * 2^e * 10^ndigits], ties to even: the digits
    of the correctly rounded decimal expansion with [ndigits] places. *)
Definition scaled_digits (ndigits : nat) (m : positive) (e : Z) : Z :=
  let n := Zpos m * 10 ^ Z.of_nat ndigits in
  if 0 <=? e then n * 2 ^ e else div_half_even n (2 ^ (- e)).

(** The binary64 value nearest to [(-1)^s * k / 10^ndigits]. *)
Definition of_decimal (ndigits : nat) (s : bool) (k : Z) : t :=
  match k with
  | Zpos p =>
      SF64div (S754_finite s p 0)
        (S754_finite false (Z.to_pos (10 ^ Z.of_nat ndigits)) 0)
  | _ => S754_zero s
  end.

(** [round(x, ndigits)] for [0 <= ndigits]: the value is rounded correctly to
    a decimal with [ndigits] places (ties to even on the exact binary value)
    and the decimal is converted back to the nearest binary64 value; zeros,
    infinities and NaN round to themselves and the sign is kept. *)
Definition round (x : t) (ndigits : nat) : t :=
  match x with
  | S754_finite s m e => of_decimal ndigits s (scaled_digits ndigits m e)
  | _ => x
  end.

(** The value carries the sign [s] (a NaN carries none). *)
Definition sign_is (s : bool) (x : t) : bool :=
  match x with
  | S754_zero s' | S754_infinity s' | S754_finite s' _ _ => Bool.eqb s' s
  | S754_nan => false
  end.

(** A zero of either sign, a positive finite value or plus infinity; these
    are the values [x] with [0 <= x]. *)
Definition nonneg (x : t) : bool :=
  match x with
  | S754_zero _ => true
  | S754_infinity s | S754_finite s _ _ => negb s
  | S754_nan => false
  end.

(** A zero of either sign, a negative finite value or minus infinity; these
    are the values [x] with [x <= 0]. *)
Definition nonpos (x : t) : bool :=
  match x with
  | S754_zero _ => true
  | S754_infinity s | S754_finite s _ _ => s
  | S754_nan => false
  end.

End PyFloat.

(** ** The environment and the state of the process

    The inputs of the process come from the environment: the level of the echo
    line at each [gpio_read], the value of the clock at each [time.time()], and
    whether each [websocket.send] is delivered or raises.  The state counts
    the inputs consumed so far and records the outputs in order. *)

Inductive exn : Type :=
  | ConnectionClosed
  | OtherException (name : string).

Record env : Type := {
  echo : nat -> Z;
  clock : nat -> PyFloat.t;
  send_result : nat -> option exn
}.

Inductive event : Type :=
  | ServoOpen
  | ServoAngle (angle : Z)
  | ServoClose
  | GpiochipOpen
  | GpioClaimOutput (pin : Z)
  | GpioClaimInput (pin : Z)
  | GpioWrite (pin level : Z)
  | GpiochipClose
  | TimeSleep (seconds : PyFloat.t)
  | AsyncioSleep (seconds : PyFloat.t)
  | WsSend (message : string)
  | Print (text : string).

Record state : Type := {
  reads : nat;
  ticks : nat;
  sends : nat;
  trace : list event
}.

Definition emit (ev : event) (s : state) : state :=
  {| reads := reads s; ticks := ticks s; sends := sends s;
     trace := trace s ++ [ev] |}.

(** A computation returns, raises, or is still running when the fuel of a
    loop is used up. *)
Inductive outcome (A : Type) : Type :=
  | Returns (a : A) (s : state)
  | Raises (e : exn) (s : state)
  | OutOfFuel (s : state).

Arguments Returns {A} a s.
Arguments Raises {A} e s.
Arguments OutOfFuel {A} s.

Definition state_of {A : Type} (o : outcome A) : state :=
  match o with
  | Returns _ s | Raises _ s | OutOfFuel s => s
  end.

Definition M (A : Type) : Type := state -> outcome A.

Definition ret {A : Type} (a : A) : M A := fun s => Returns a s.


Definition bind {A B : Type} (m : M A) (k : A -> M B) : M B :=
  fun s =>
    match m s with
    | Returns a s' => k a s'
    | Raises e s' => Raises e s'
    | OutOfFuel s' => OutOfFuel s'
    end.

Notation "x <- m ;; k" := (bind m (fun x => k))
  (at level 61, m at next level, right associativity).
Notation "m ;; k" := (bind m (fun _ => k))
  (at level 61, right associativity).

(** [try: body except ConnectionClosed: handle]. *)
Definition try_except_closed {A : Type} (body handle : M A) : M A :=
  fun s =>
    match body s with
    | Raises ConnectionClosed s' => handle s'
    | o => o
    end.


(** ** Module-level constants *)

Definition TRIG : Z := 23.
Definition ECHO : Z := 24.

(** ** The primitives of the libraries *)

Definition do (ev : event) : M unit := fun s => Returns tt (emit ev s).

Definition out_of_fuel {A : Type} : M A := fun s => OutOfFuel s.

Section Program.

Variable E : env.

(** [float.__repr__] belongs to the interpreter; the program is
    parametric in it. *)
Variable float_repr : PyFloat.t -> string.

Definition gpio_write (pin level : Z) : M unit := do (GpioWrite pin level).

Definition gpio_read (pin : Z) : M Z :=
  fun s =>
    Returns (echo E (reads s))
      {| reads := S (reads s); ticks := ticks s; sends := sends s;
         trace := trace s |}.

Definition time_time : M PyFloat.t :=
  fun s =>
    Returns (clock E (ticks s))
      {| reads := reads s; ticks := S (ticks s); sends := sends s;
         trace := trace s |}.

Definition time_sleep (seconds : PyFloat.t) : M unit := do (TimeSleep seconds).

Definition asyncio_sleep (seconds : PyFloat.t) : M unit :=
  do (AsyncioSleep seconds).

Definition servo_set_angle (angle : Z) : M unit := do (ServoAngle angle).

Definition print (text : string) : M unit := do (Print text).


(** [websocket.send(message)]: the message goes out, or the call raises. *)
Definition websocket_send (message : string) : M unit :=
  fun s =>
    let s' := {| reads := reads s; ticks := ticks s; sends := S (sends s);
                 trace := trace s |} in
    match send_result E (sends s) with
    | None => Returns tt (emit (WsSend message) s')
    | Some e => Raises e s'
    end.

(** ** [json.dumps] of a dictionary of numbers *)

Inductive pyvalue : Type :=
  | PyInt (z : Z)
  | PyFloatV (f : PyFloat.t).

Definition pydict : Type := list (string * pyvalue).

Definition dquote : string := String "034" EmptyString.

Definition json_float (f : PyFloat.t) : string :=
  match f with
  | S754_nan => "NaN"
  | S754_infinity false => "Infinity"
  | S754_infinity true => "-Infinity"
  | _ => float_repr f
  end.

Definition json_value (v : pyvalue) : string :=
  match v with
  | PyInt z => NilZero.string_of_int (Z.to_int z)
  | PyFloatV f => json_float f
  end.

(** The keys of the program are plain words: they are written between double
    quotes as they are. *)
Definition json_item (kv : string * pyvalue) : string :=
  dquote ++ fst kv ++ dquote ++ ": " ++ json_value (snd kv).

Definition json_dumps (d : pydict) : string :=
  "{" ++ String.concat ", " (map json_item d) ++ "}".

(** ** [get_distance] *)

(** [while GPIO.gpio_read(h, ECHO) == level: last = time.time()] *)
Fixpoint wait_while (level : Z) (fuel : nat) (last : PyFloat.t) : M PyFloat.t :=
  match fuel with
  | O => out_of_fuel
  | S fuel' =>
      v <- gpio_read ECHO ;;
      if v =? level
      then (now <- time_time ;; wait_while level fuel' now)
      else ret last
  end.

Definition get_distance (fuel : nat) : M PyFloat.t :=
  gpio_write TRIG 0 ;;
  time_sleep (PyFloat.lit 0.05) ;;
  gpio_write TRIG 1 ;;
  time_sleep (PyFloat.lit 0.00001) ;;
  gpio_write TRIG 0 ;;
  pulse_start <- time_time ;;
  pulse_start <- wait_while 0 fuel pulse_start ;;
  pulse_end <- time_time ;;
  pulse_end <- wait_while 1 fuel pulse_end ;;
  let pulse_duration := PyFloat.sub pulse_end pulse_start in
  let distance_cm := PyFloat.mul pulse_duration (PyFloat.lit 17150) in
  ret (PyFloat.round distance_cm 2).

(** ** [sweep_sensor] *)

Definition step : Z := 5.

(** Lines 67-73: the angle and the direction of the next iteration. *)
Definition adjust (angle direction : Z) : Z * Z :=
  let angle := angle + step * direction in
  if angle >=? 180 then (180, -1)
  else if angle <=? 0 then (0, 1)
  else (angle, direction).

(** One iteration of the [while True] loop. *)
Definition sweep_iteration (fuel : nat) (angle direction : Z) : M (Z * Z) :=
  servo_set_angle angle ;;
  dist <- get_distance fuel ;;
  let data := [("angle"%string, PyInt angle); ("distance"%string, PyFloatV dist)] in
  websocket_send (json_dumps data) ;;
  let next := adjust angle direction in
  asyncio_sleep (PyFloat.lit 0.1) ;;
  ret next.

Fixpoint sweep_loop (iterations fuel : nat) (angle direction : Z) : M unit :=
  match iterations with
  | O => out_of_fuel
  | S n =>
      next <- sweep_iteration fuel angle direction ;;
      sweep_loop n fuel (fst next) (snd next)
  end.

Definition sweep_sensor (iterations fuel : nat) : M unit :=
  let angle := 0 in
  let direction := 1 in
  sweep_loop iterations fuel angle direction.

(** ** [handler] *)

Definition handler (iterations fuel : nat) : M unit :=
  print "Client connected" ;;
  try_except_closed (sweep_sensor iterations fuel) (print "Client disconnected").

(** ** [main] and the [__main__] block *)

(** The server calls [handler] for each connection; what a handler raises
    stays in its task. *)
Fixpoint serve (connections iterations fuel : nat) : M unit :=
  match connections with
  | O => ret tt
  | S n =>
      (fun s => match handler iterations fuel s with
                | Raises _ s' => Returns tt s'
                | o => o
                end) ;;
      serve n iterations fuel
  end.



End Program.

Definition initial_state : state :=
  {| reads := 0; ticks := 0; sends := 0; trace := [] |}.

(** ** The sweep as a sequence *)

(** The angle and direction held by [sweep_sensor] when iteration [n]
    starts. *)
Fixpoint sweep_state (n : nat) : Z * Z :=
  match n with
  | O => (0, 1)
  | S n' => let p := sweep_state n' in adjust (fst p) (snd p)
  end.

Definition angle_at (n : nat) : Z := fst (sweep_state n).

(** The triangle wave of the specification: up from 0 to [top] by [stp],
    down again to 0, with period [2 * top / stp]. *)
Definition triangle_wave (stp top : Z) (n : nat) : Z :=
  let half := top / stp in
  let m := Z.of_nat n mod (2 * half) in
  if m <=? half then stp * m else stp * (2 * half - m).

(** ** Traces *)

Definition servo_angles (evs : list event) : list Z :=
  flat_map (fun ev => match ev with ServoAngle a => [a] | _ => [] end) evs.

Definition messages (evs : list event) : list string :=
  flat_map (fun ev => match ev with WsSend m => [m] | _ => [] end) evs.

(** What [get_distance] writes before it listens. *)
Definition trigger_events : list event :=
  [GpioWrite TRIG 0; TimeSleep (PyFloat.lit 0.05);
   GpioWrite TRIG 1; TimeSleep (PyFloat.lit 0.00001);
   GpioWrite TRIG 0].

Definition reading (float_repr : PyFloat.t -> string)
    (angle : Z) (dist : PyFloat.t) : string :=
  json_dumps float_repr
    [("angle"%string, PyInt angle); ("distance"%string, PyFloatV dist)].

Definition printed (evs : list event) : list string :=
  flat_map (fun ev => match ev with Print t => [t] | _ => [] end) evs.

(** What a computation started in [s] has added to the trace. *)
Definition emitted {A : Type} (s : state) (o : outcome A) : list event :=
  skipn (List.length (trace s)) (trace (state_of o)).

(** The state once the trigger pulse is written. *)
Definition triggered (s : state) : state :=
  emit (GpioWrite TRIG 0)
    (emit (TimeSleep (PyFloat.lit 0.00001))
       (emit (GpioWrite TRIG 1)
          (emit (TimeSleep (PyFloat.lit 0.05))
             (emit (GpioWrite TRIG 0) s)))).

(** The outputs of one complete iteration. *)
Definition iteration_events (float_repr : PyFloat.t -> string)
    (ad : Z * PyFloat.t) : list event :=
  ServoAngle (fst ad) :: trigger_events
    ++ [WsSend (reading float_repr (fst ad) (snd ad));
        AsyncioSleep (PyFloat.lit 0.1)].

(** The distance computed from a pulse duration. *)
Definition distance_of_duration (pulse_duration : PyFloat.t) : PyFloat.t :=
  PyFloat.round (PyFloat.mul pulse_duration (PyFloat.lit 17150)) 2.

(** A distance that [get_distance] can compute from two readings of the
    clock of [E]. *)
Definition measured (E : env) (dist : PyFloat.t) : Prop :=
  exists i j : nat, (i <= j)%nat /\
    dist = distance_of_duration (PyFloat.sub (clock E j) (clock E i)).

(** The outputs of the complete iterations [k], ..., [k + length ds - 1],
    which read the distances [ds]. *)
Definition iterations_events (float_repr : PyFloat.t -> string)
    (k : nat) (ds : list PyFloat.t) : list event :=
  flat_map (iteration_events float_repr)
    (combine (map angle_at (seq k (List.length ds))) ds).

(** ** Behaviours of the echo line, from read number [r] on *)

Definition never_high (E : env) (r : nat) : Prop :=
  forall i : nat, echo E (r + i) = 0.

(** High for the first time at read [r + k]. *)
Definition high_at (E : env) (r k : nat) : Prop :=
  (forall i : nat, (i < k)%nat -> echo E (r + i) = 0) /\ echo E (r + k) <> 0.

(** Low again for the first time at read [r + j]. *)
Definition low_at (E : env) (r j : nat) : Prop :=
  (forall i : nat, (i < j)%nat -> echo E (r + i) = 1) /\ echo E (r + j) <> 1.

Definition never_low (E : env) (r : nat) : Prop :=
  forall i : nat, echo E (r + i) = 1.

(** Every measurement hears its echo within [fuel] reads. *)
Definition echo_responds (E : env) (fuel : nat) : Prop :=
  forall r : nat, exists k j : nat,
    (k < fuel)%nat /\ (j < fuel)%nat /\
    high_at E r k /\ low_at E (r + k + 1) j.

(** The clock does not go back and gives proper finite values, from call
    [c] on. *)
Definition clock_monotone (E : env) (c : nat) : Prop :=
  forall i j : nat, (c <= i)%nat -> (i <= j)%nat ->
    PyFloat.leb (clock E i) (clock E j) = true.

Definition clock_finite (E : env) (c : nat) : Prop :=
  forall i : nat, (c <= i)%nat ->
    PyFloat.valid (clock E i) = true /\ PyFloat.is_finite (clock E i) = true.

(** [get_distance] started in [s] never comes back, whatever time it is
    given. *)
Definition get_distance_diverges (E : env) (s : state) : Prop :=
  forall fuel : nat, exists s' : state, get_distance E fuel s = OutOfFuel s'.

(** [get_distance] started in [s] returns, as soon as it is given time
    enough. *)
Definition get_distance_terminates (E : env) (s : state) : Prop :=
  exists (fuel0 : nat) (d : PyFloat.t) (s' : state),
    forall fuel : nat, (fuel0 <= fuel)%nat ->
      get_distance E fuel s = Returns d s'.

(** ** The process: startup, script, interpreter exit *)













(** ** Environments to run the program in *)

Definition demo_env : env :=
  {| echo := fun i => if Nat.even i then 1 else 0;
     clock := fun i => if Nat.even i then PyFloat.lit 100 else PyFloat.lit 100.001;
     send_result := fun i => if (i <? 3)%nat then None else Some ConnectionClosed |}.

Definition demo_repr (f : PyFloat.t) : string := "<float>".

(** The echo pulse lasts exactly one millisecond. *)
Definition ms_env : env :=
  {| echo := fun i => if Nat.even i then 1 else 0;
     clock := fun i => match i with O => PyFloat.lit 0 | _ => PyFloat.lit 0.001 end;
     send_result := fun _ => None |}.

(** The echo line stays low. *)
Definition silent_env : env :=
  {| echo := fun _ => 0;
     clock := fun _ => PyFloat.lit 0;
     send_result := fun _ => None |}.

(** The echo line goes high at once and stays high. *)
Definition stuck_env : env :=
  {| echo := fun _ => 1;
     clock := fun _ => PyFloat.lit 0;
     send_result := fun _ => None |}.

(** The third send fails with an error that is no disconnect. *)
Definition broken_env : env :=
  {| echo := fun i => if Nat.even i then 1 else 0;
     clock := fun i => if Nat.even i then PyFloat.lit 100 else PyFloat.lit 100.001;
     send_result := fun i => if (i <? 2)%nat then None
                             else Some (OtherException "OSError") |}.


(** The clock steps back by one millisecond during the pulse. *)
Definition backward_env : env :=
  {| echo := fun i => if Nat.even i then 1 else 0;
     clock := fun i => match i with O => PyFloat.lit 0.001 | _ => PyFloat.lit 0 end;
     send_result := fun _ => None |}.

(** * Properties *)

(** ** Signs of rounded binary64 values *)

Lemma shr_1_nonneg (mrs : shr_record) :
  0 <= shr_m mrs -> 0 <= shr_m (shr_1 mrs).
Proof.
  destruct mrs as [m r s]; simpl.
  destruct m as [|p|p]; [intros _; simpl; lia | | lia].
  destruct p; simpl; lia.
Qed.

Lemma iter_shr_1_nonneg (p : positive) :
  forall mrs, 0 <= shr_m mrs -> 0 <= shr_m (SpecFloat.iter_pos shr_1 p mrs).
Proof.
  induction p as [p IH|p IH|]; intros mrs H; simpl.
  - apply IH, IH, shr_1_nonneg, H.
  - apply IH, IH, H.
  - apply shr_1_nonneg, H.
Qed.

Lemma shr_nonneg (mrs : shr_record) (e n : Z) :
  0 <= shr_m mrs -> 0 <= shr_m (fst (shr mrs e n)).
Proof.
  intros H. destruct n; simpl; auto using iter_shr_1_nonneg.
Qed.

Lemma shr_fexp_nonneg (m e : Z) (l : location) :
  0 <= m -> 0 <= shr_m (fst (shr_fexp prec emax m e l)).
Proof.
  intros H. unfold shr_fexp. apply shr_nonneg.
  destruct l as [|[| |]]; simpl; exact H.
Qed.

Lemma round_nearest_even_nonneg (m : Z) (l : location) :
  0 <= m -> 0 <= round_nearest_even m l.
Proof.
  intros H. destruct l as [|[| |]]; simpl; try lia.
  destruct (Z.even m); lia.
Qed.

Lemma binary_round_aux_sign (sx : bool) (mx ex : Z) (lx : location) :
  0 <= mx -> PyFloat.sign_is sx (binary_round_aux prec emax sx mx ex lx) = true.
Proof.
  intros H. unfold binary_round_aux.
  pose proof (shr_fexp_nonneg mx ex lx H) as H1.
  destruct (shr_fexp prec emax mx ex lx) as [mrs' e']. simpl in H1.
  pose proof (shr_fexp_nonneg _ e' loc_Exact
                (round_nearest_even_nonneg _ (loc_of_shr_record mrs') H1)) as H2.
  destruct (shr_fexp prec emax _ e' loc_Exact) as [mrs'' e'']. simpl in H2.
  destruct (shr_m mrs'') as [|p|p]; simpl.
  - apply eqb_reflx.
  - destruct (_ <=? _); simpl; apply eqb_reflx.
  - lia.
Qed.

Lemma binary_round_sign (sx : bool) (mx : positive) (ex : Z) :
  PyFloat.sign_is sx (binary_round prec emax sx mx ex) = true.
Proof.
  unfold binary_round.
  destruct (shl_align mx ex _) as [mz ez].
  apply binary_round_aux_sign. lia.
Qed.

Lemma sign_is_nonneg (x : spec_float) : PyFloat.sign_is false x = true -> PyFloat.nonneg x = true.
Proof. destruct x as [s|s| |s m e]; simpl; try discriminate; destruct s; auto. Qed.

Lemma binary_normalize_nonneg (m e : Z) :
  0 <= m -> PyFloat.nonneg (binary_normalize prec emax m e false) = true.
Proof.
  intros H. destruct m as [|p|p]; simpl; [reflexivity | | lia].
  apply sign_is_nonneg, binary_round_sign.
Qed.

Lemma digits2_pos_bounds (m : positive) :
  2 ^ (Zpos (digits2_pos m) - 1) <= Zpos m < 2 ^ Zpos (digits2_pos m).
Proof.
  induction m as [m IH|m IH|]; simpl digits2_pos.
  - rewrite Pos2Z.inj_succ.
    replace (Z.succ (Zpos (digits2_pos m)) - 1) with (Z.succ (Zpos (digits2_pos m) - 1)) by lia.
    rewrite !Z.pow_succ_r by lia. lia.
  - rewrite Pos2Z.inj_succ.
    replace (Z.succ (Zpos (digits2_pos m)) - 1) with (Z.succ (Zpos (digits2_pos m) - 1)) by lia.
    rewrite !Z.pow_succ_r by lia. lia.
  - simpl. lia.
Qed.

Lemma iter_xO_value (d m : positive) :
  Zpos (Pos.iter xO m d) = Zpos m * 2 ^ Zpos d.
Proof.
  induction d as [|d IH] using Pos.peano_ind.
  - simpl. lia.
  - rewrite Pos.iter_succ, Pos2Z.inj_succ, Z.pow_succ_r by lia.
    rewrite Pos2Z.inj_xO, IH. lia.
Qed.

Lemma shl_align_value (mx : positive) (ex ez : Z) :
  ez <= ex -> Zpos (fst (shl_align mx ex ez)) = Zpos mx * 2 ^ (ex - ez).
Proof.
  intros H. unfold shl_align.
  destruct (ez - ex) as [|d|d] eqn:Hd; simpl.
  - replace (ex - ez) with 0 by lia. simpl. lia.
  - lia.
  - rewrite iter_xO_value. replace (ex - ez) with (Zpos d) by lia. reflexivity.
Qed.

Lemma bounded_mantissa (m : positive) (e : Z) :
  bounded prec emax m e = true ->
  Zpos m < 2 ^ 53 /\ (-1074 <= e) /\ (-1074 < e -> 2 ^ 52 <= Zpos m).
Proof.
  unfold bounded, canonical_mantissa, fexp, SpecFloat.emin, prec, emax.
  intros H. apply andb_true_iff in H. destruct H as [H _].
  apply Z.eqb_eq in H.
  pose proof (digits2_pos_bounds m) as [Hlo Hhi].
  assert (Hd : Zpos (digits2_pos m) <= 53) by lia.
  split; [|split].
  - apply Z.lt_le_trans with (1 := Hhi). apply Z.pow_le_mono_r; lia.
  - lia.
  - intros He. assert (Zpos (digits2_pos m) = 53) as Hd' by lia.
    rewrite Hd' in Hlo. exact Hlo.
Qed.

Lemma pow2_pos (n : Z) : 0 <= n -> 0 < 2 ^ n.
Proof. intros. apply Z.pow_pos_nonneg; lia. Qed.

(** The difference of two aligned mantissas of binary64 values has the sign
    that the comparison of exponents and mantissas tells. *)
Lemma aligned_diff_nonneg (mx my : positive) (ex ey : Z) :
  bounded prec emax mx ex = true ->
  bounded prec emax my ey = true ->
  (ex < ey \/ (ex = ey /\ (mx <= my)%positive)) ->
  0 <= Zpos (fst (shl_align my ey (Z.min ex ey)))
       - Zpos (fst (shl_align mx ex (Z.min ex ey))).
Proof.
  intros Hx Hy H.
  rewrite !shl_align_value by lia.
  destruct (bounded_mantissa _ _ Hx) as (Hx1 & Hx2 & _).
  destruct (bounded_mantissa _ _ Hy) as (_ & _ & Hy3).
  destruct H as [H|[H H']].
  - rewrite Z.min_l by lia. rewrite Z.sub_diag. simpl (2 ^ 0).
    assert (2 ^ 1 <= 2 ^ (ey - ex)) by (apply Z.pow_le_mono_r; lia).
    specialize (Hy3 ltac:(lia)).
    change (2 ^ 1) with 2 in *. change (2 ^ 53) with (2 * 2 ^ 52) in Hx1.
    nia.
  - subst ey. rewrite Z.min_id, Z.sub_diag. simpl (2 ^ 0). lia.
Qed.

Lemma sub_nonneg (x y : spec_float) :
  valid_binary x = true -> valid_binary y = true ->
  PyFloat.is_finite x = true -> PyFloat.is_finite y = true ->
  SFleb x y = true ->
  PyFloat.nonneg (SF64sub y x) = true.
Proof.
  intros Vx Vy Fx Fy H.
  destruct x as [sx|sx| |sx mx ex]; try discriminate;
  destruct y as [sy|sy| |sy my ey]; try discriminate.
  - destruct sx, sy; reflexivity.
  - unfold SFleb, SFcompare in H. destruct sy; [discriminate|reflexivity].
  - unfold SFleb, SFcompare in H. destruct sx; [reflexivity|discriminate].
  - unfold SF64sub, SFsub. cbv zeta. apply binary_normalize_nonneg.
    simpl in Vx, Vy. unfold SFleb, SFcompare in H.
    change (Pos.compare_cont Eq mx my) with (mx ?= my)%positive in H.
    destruct sx, sy; simpl cond_Zopp; try discriminate.
    + pose proof (aligned_diff_nonneg my mx ey ex Vy Vx) as D.
      destruct (ex ?= ey) eqn:C; try discriminate.
      * apply Z.compare_eq in C.
        destruct (mx ?= my)%positive eqn:C'; try discriminate.
        -- apply Pos.compare_eq in C'. subst. specialize (D ltac:(right; split; [reflexivity|apply Pos.le_refl])). lia.
        -- apply Pos.compare_gt_iff in C'. specialize (D ltac:(right; split; [lia|apply Pos.lt_le_incl; exact C'])). lia.
      * apply Z.compare_gt_iff in C. specialize (D ltac:(left; lia)). lia.
    + pose proof (aligned_diff_nonneg mx my ex ey Vx Vy) as D.
      rewrite (Z.min_comm ey ex).
      destruct (ex ?= ey) eqn:C; try discriminate.
      * apply Z.compare_eq in C.
        destruct (mx ?= my)%positive eqn:C'; try discriminate.
        -- apply Pos.compare_eq in C'. subst. specialize (D ltac:(right; split; [reflexivity|apply Pos.le_refl])). lia.
        -- apply Pos.compare_lt_iff in C'. specialize (D ltac:(right; split; [lia|apply Pos.lt_le_incl; exact C'])). lia.
      * change (ex < ey) in C. specialize (D ltac:(left; lia)). lia.
Qed.

Lemma nonneg_leb_zero (x : spec_float) :
  PyFloat.nonneg x = true -> SFleb (S754_zero false) x = true.
Proof. destruct x as [s|s| |s m e]; simpl; try discriminate; destruct s; auto; discriminate. Qed.

Lemma mul_const_nonneg (x : spec_float) (m : positive) (e : Z) :
  PyFloat.nonneg x = true -> PyFloat.nonneg (SF64mul x (S754_finite false m e)) = true.
Proof.
  destruct x as [s|s| |s mx ex]; simpl; try discriminate.
  - reflexivity.
  - destruct s; try discriminate. reflexivity.
  - destruct s; try discriminate. intros _.
    apply sign_is_nonneg.
    unfold SF64mul, SFmul. apply binary_round_aux_sign. lia.
Qed.

Lemma div_sign (s : bool) (p q : positive) :
  PyFloat.sign_is s (SF64div (S754_finite s p 0) (S754_finite false q 0)) = true.
Proof.
  unfold SF64div, SFdiv.
  destruct (SFdiv_core_binary prec emax (Zpos p) 0 (Zpos q) 0) as [[mz ez] lz] eqn:Hc.
  rewrite xorb_false_r. apply binary_round_aux_sign.
  unfold SFdiv_core_binary in Hc.
  set (sft := 0 - 0 - _) in Hc.
  set (m' := match sft with Zpos _ => _ | Z0 => _ | Zneg _ => _ end) in Hc.
  assert (Hm : 0 <= m').
  { subst m'. destruct sft; try lia. apply Z.shiftl_nonneg. lia. }
  pose proof (Z_div_mod m' (Zpos q) ltac:(lia)) as Hdm.
  destruct (Z.div_eucl m' (Zpos q)) as [q0 r0].
  injection Hc as <- _ _. nia.
Qed.

Lemma round_nonneg (x : spec_float) (ndigits : nat) :
  PyFloat.nonneg x = true -> PyFloat.nonneg (PyFloat.round x ndigits) = true.
Proof.
  destruct x as [s|s| |s m e]; simpl; auto.
  destruct s; try discriminate. intros _.
  unfold PyFloat.of_decimal.
  destruct (PyFloat.scaled_digits ndigits m e); try reflexivity.
  apply sign_is_nonneg, div_sign.
Qed.

Lemma distance_nonneg (x y : spec_float) :
  valid_binary x = true -> valid_binary y = true ->
  PyFloat.is_finite x = true -> PyFloat.is_finite y = true ->
  SFleb x y = true ->
  PyFloat.nonneg (PyFloat.sub y x) = true /\
  PyFloat.nonneg (distance_of_duration (PyFloat.sub y x)) = true.
Proof.
  intros. pose proof (sub_nonneg x y) as S. split; [auto|].
  unfold distance_of_duration. apply round_nonneg.
  change (PyFloat.lit 17150) with (S754_finite false 4714156104089600 (-38)).
  apply mul_const_nonneg. auto.
Qed.

(** ** The angle sweep *)

Ltac cases_on_comparisons :=
  repeat match goal with
  | |- context [?a >=? ?b] => rewrite (Z.geb_leb a b)
  | |- context [?a <=? ?b] => destruct (Z.leb_spec a b)
  | |- context [?a <? ?b] => destruct (Z.ltb_spec a b)
  end.

Lemma adjust_range (angle direction : Z) :
  0 <= fst (adjust angle direction) <= 180.
Proof. unfold adjust, step. cbv zeta. cases_on_comparisons; cbn [fst snd]; lia. Qed.

Lemma succ_mod_72 (n : nat) :
  Z.of_nat (S n) mod 72 =
    if Z.of_nat n mod 72 <? 71 then Z.of_nat n mod 72 + 1 else 0.
Proof.
  rewrite Nat2Z.inj_succ.
  pose proof (Z.mod_pos_bound (Z.of_nat n) 72 ltac:(lia)).
  cases_on_comparisons.
  - symmetry. apply (Z.mod_unique_pos _ _ (Z.of_nat n / 72)); [lia|].
    pose proof (Z.div_mod (Z.of_nat n) 72 ltac:(lia)). lia.
  - symmetry. apply (Z.mod_unique_pos _ _ (Z.of_nat n / 72 + 1)); [lia|].
    pose proof (Z.div_mod (Z.of_nat n) 72 ltac:(lia)). lia.
Qed.

Lemma sweep_state_closed (n : nat) :
  sweep_state n =
    (triangle_wave step 180 n, if Z.of_nat n mod 72 <? 36 then 1 else -1).
Proof.
  induction n as [|n IH]; [reflexivity|].
  cbn [sweep_state]. rewrite IH. cbn [fst snd].
  unfold triangle_wave. change (180 / step) with 36. change (2 * 36) with 72.
  rewrite succ_mod_72.
  pose proof (Z.mod_pos_bound (Z.of_nat n) 72 ltac:(lia)).
  generalize dependent (Z.of_nat n mod 72). intros m _ Hm.
  unfold adjust, step. cbv zeta.
  destruct (Z.ltb_spec m 71), (Z.leb_spec m 36), (Z.ltb_spec m 36);
    cases_on_comparisons; try lia; f_equal; lia.
Qed.

Lemma angle_at_wave (n : nat) : angle_at n = triangle_wave step 180 n.
Proof. unfold angle_at. rewrite sweep_state_closed. reflexivity. Qed.

Lemma triangle_wave_steps (n : nat) :
  let m := Z.of_nat n mod 72 in
  (m < 36 ->
   triangle_wave step 180 n < 180 /\
   triangle_wave step 180 (S n) = triangle_wave step 180 n + step) /\
  (36 <= m ->
   0 < triangle_wave step 180 n /\
   triangle_wave step 180 (S n) = triangle_wave step 180 n - step) /\
  (triangle_wave step 180 n = 180 <-> m = 36) /\
  (triangle_wave step 180 n = 0 <-> m = 0).
Proof.
  unfold triangle_wave. change (180 / step) with 36. change (2 * 36) with 72.
  rewrite succ_mod_72.
  pose proof (Z.mod_pos_bound (Z.of_nat n) 72 ltac:(lia)).
  generalize dependent (Z.of_nat n mod 72). intros m Hm. cbv zeta.
  unfold step.
  destruct (Z.ltb_spec m 71), (Z.leb_spec m 36); cases_on_comparisons; lia.
Qed.

Lemma angle_at_range (n : nat) : 0 <= angle_at n <= 180.
Proof.
  destruct n as [|n]; [cbv; split; discriminate|].
  unfold angle_at. cbn [sweep_state]. apply adjust_range.
Qed.

(** ** Projections of the trace *)

Lemma servo_angles_app (xs ys : list event) :
  servo_angles (xs ++ ys) = servo_angles xs ++ servo_angles ys.
Proof. apply flat_map_app. Qed.

Lemma messages_app (xs ys : list event) :
  messages (xs ++ ys) = messages xs ++ messages ys.
Proof. apply flat_map_app. Qed.

Lemma printed_app (xs ys : list event) :
  printed (xs ++ ys) = printed xs ++ printed ys.
Proof. apply flat_map_app. Qed.

Section Traces.

Variable float_repr : PyFloat.t -> string.

Lemma iterations_events_cons (k : nat) (dist : PyFloat.t) (ds : list PyFloat.t) :
  iterations_events float_repr k (dist :: ds) =
    iteration_events float_repr (angle_at k, dist)
      ++ iterations_events float_repr (S k) ds.
Proof. reflexivity. Qed.

Lemma servo_angles_iterations (ds : list PyFloat.t) :
  forall k : nat,
    servo_angles (iterations_events float_repr k ds) =
      map angle_at (seq k (List.length ds)).
Proof.
  induction ds as [|d ds IH]; intros k; [reflexivity|].
  rewrite iterations_events_cons, servo_angles_app, IH. reflexivity.
Qed.

Lemma messages_iterations (ds : list PyFloat.t) :
  forall k : nat,
    messages (iterations_events float_repr k ds) =
      map (fun ad => reading float_repr (fst ad) (snd ad))
        (combine (map angle_at (seq k (List.length ds))) ds).
Proof.
  induction ds as [|d ds IH]; intros k; [reflexivity|].
  rewrite iterations_events_cons, messages_app, IH. reflexivity.
Qed.

Lemma printed_iterations (ds : list PyFloat.t) :
  forall k : nat, printed (iterations_events float_repr k ds) = [].
Proof.
  induction ds as [|d ds IH]; intros k; [reflexivity|].
  rewrite iterations_events_cons, printed_app, IH. reflexivity.
Qed.

End Traces.

(** ** The busy-wait of [get_distance] *)

Section GetDistance.

Variable E : env.

Lemma wait_while_exits (level : Z) :
  forall (k fuel : nat) (last : PyFloat.t) (s : state),
    (forall i : nat, (i < k)%nat -> echo E (reads s + i) = level) ->
    echo E (reads s + k) <> level ->
    (k < fuel)%nat ->
    wait_while E level fuel last s =
      Returns (match k with O => last | S k' => clock E (ticks s + k') end)
        {| reads := reads s + S k; ticks := ticks s + k;
           sends := sends s; trace := trace s |}.
Proof.
  induction k as [|k IH]; intros fuel last s Hlt Hk Hf;
    (destruct fuel as [|fuel]; [lia|]);
    simpl; unfold bind, gpio_read, ret.
  - rewrite Nat.add_0_r in Hk. apply Z.eqb_neq in Hk. rewrite Hk.
    f_equal. f_equal; lia.
  - pose proof (Hlt O ltac:(lia)) as H0. rewrite Nat.add_0_r in H0.
    rewrite H0, Z.eqb_refl. unfold time_time. simpl.
    rewrite IH; simpl.
    + f_equal.
      * destruct k; f_equal; lia.
      * f_equal; lia.
    + intros i Hi. rewrite <- (Hlt (S i)) by lia. f_equal. lia.
    + rewrite <- Nat.add_succ_r. exact Hk.
    + lia.
Qed.

Lemma wait_while_spins (level : Z) :
  forall (fuel : nat) (last : PyFloat.t) (s : state),
    (forall i : nat, echo E (reads s + i) = level) ->
    exists s', wait_while E level fuel last s = OutOfFuel s'
               /\ trace s' = trace s /\ sends s' = sends s.
Proof.
  induction fuel as [|fuel IH]; intros last s H; simpl.
  - exists s. auto.
  - unfold bind, gpio_read, time_time.
    pose proof (H O) as H0. rewrite Nat.add_0_r in H0.
    rewrite H0, Z.eqb_refl.
    match goal with |- context [wait_while E level fuel ?l ?st] =>
      destruct (IH l st) as (s' & He & Ht & Hs) end.
    + simpl. intros i. rewrite <- (H (S i)). f_equal. lia.
    + exists s'. rewrite He. auto.
Qed.

Lemma wait_while_inv (level : Z) :
  forall (fuel : nat) (last : PyFloat.t) (s : state),
    match wait_while E level fuel last s with
    | Returns v s' =>
        trace s' = trace s /\ sends s' = sends s /\
        (ticks s <= ticks s')%nat /\
        (v = last \/
         exists i : nat, (ticks s <= i < ticks s')%nat /\ v = clock E i)
    | Raises _ _ => False
    | OutOfFuel s' => trace s' = trace s /\ sends s' = sends s
    end.
Proof.
  induction fuel as [|fuel IH]; intros last s; simpl.
  - auto.
  - unfold bind, gpio_read, time_time, ret.
    destruct (echo E (reads s) =? level).
    + match goal with |- context [wait_while E level fuel ?l ?st] =>
        specialize (IH l st) end.
      destruct (wait_while E level fuel _ _) as [v s'| |s']; simpl in *; auto.
      destruct IH as (Ht & Hs & Hk & Hv). repeat split; auto; try lia.
      right. destruct Hv as [->|(i & Hi & ->)].
      * exists (ticks s). split; [lia|reflexivity].
      * exists i. split; [lia|reflexivity].
    + simpl. repeat split; auto.
Qed.

Lemma triggered_trace (s : state) :
  trace (triggered s) = trace s ++ trigger_events.
Proof. unfold triggered, emit, trigger_events. simpl. rewrite <- !app_assoc. reflexivity. Qed.

Lemma get_distance_inv (fuel : nat) (s : state) :
  match get_distance E fuel s with
  | Returns d s' =>
      trace s' = trace s ++ trigger_events /\ sends s' = sends s /\
      exists i j : nat, (ticks s <= i)%nat /\ (i <= j)%nat /\
        d = distance_of_duration (PyFloat.sub (clock E j) (clock E i))
  | Raises _ _ => False
  | OutOfFuel s' =>
      trace s' = trace s ++ trigger_events /\ sends s' = sends s
  end.
Proof.
  unfold get_distance, bind, gpio_write, time_sleep, do, time_time.
  fold (triggered s).
  set (s1 := {| reads := reads (triggered s); ticks := S (ticks (triggered s));
                sends := sends (triggered s); trace := trace (triggered s) |}).
  pose proof (wait_while_inv 0 fuel (clock E (ticks (triggered s))) s1) as W1.
  destruct (wait_while E 0 fuel _ s1) as [ps s2| |s2]; [|contradiction|].
  - destruct W1 as (Ht1 & Hs1 & Hk1 & Hv1).
    set (s3 := {| reads := reads s2; ticks := S (ticks s2);
                  sends := sends s2; trace := trace s2 |}).
    pose proof (wait_while_inv 1 fuel (clock E (ticks s2)) s3) as W2.
    destruct (wait_while E 1 fuel _ s3) as [pe s4| |s4]; [|contradiction|].
    + destruct W2 as (Ht2 & Hs2 & Hk2 & Hv2). unfold ret.
      split; [|split].
      * rewrite Ht2. simpl. rewrite Ht1. simpl. apply triggered_trace.
      * rewrite Hs2. simpl. rewrite Hs1. reflexivity.
      * assert (exists i, (ticks s <= i < ticks s2)%nat /\ ps = clock E i) as (i & Hi & ->).
        { destruct Hv1 as [->|(i & Hi & ->)].
          - exists (ticks s). simpl in Hk1. split; [simpl; lia|reflexivity].
          - exists i. simpl in Hi. split; [simpl in *; lia|reflexivity]. }
        assert (exists j, (ticks s2 <= j)%nat /\ pe = clock E j) as (j & Hj & ->).
        { destruct Hv2 as [->|(j & Hj & ->)].
          - exists (ticks s2). split; [lia|reflexivity].
          - exists j. simpl in Hj. split; [lia|reflexivity]. }
        exists i, j. repeat split; try lia.
    + destruct W2 as (Ht2 & Hs2). split.
      * rewrite Ht2. simpl. rewrite Ht1. simpl. apply triggered_trace.
      * rewrite Hs2. simpl. rewrite Hs1. reflexivity.
  - destruct W1 as (Ht1 & Hs1). split.
    + rewrite Ht1. simpl. apply triggered_trace.
    + rewrite Hs1. reflexivity.
Qed.

Lemma get_distance_exact (fuel k j : nat) (s : state) :
  high_at E (reads s) k -> low_at E (reads s + k + 1) j ->
  (k < fuel)%nat -> (j < fuel)%nat ->
  get_distance E fuel s =
    Returns
      (distance_of_duration
         (PyFloat.sub (clock E (ticks s + k + 1 + j)) (clock E (ticks s + k))))
      {| reads := reads s + k + j + 2; ticks := ticks s + k + j + 2;
         sends := sends s; trace := trace s ++ trigger_events |}.
Proof.
  intros [Hk0 Hk1] [Hj0 Hj1] Hkf Hjf.
  unfold get_distance, bind, gpio_write, time_sleep, do, time_time.
  fold (triggered s).
  assert (Hr : reads (triggered s) = reads s) by reflexivity.
  assert (Ht : ticks (triggered s) = ticks s) by reflexivity.
  assert (Hs : sends (triggered s) = sends s) by reflexivity.
  pose proof (triggered_trace s) as Htr.
  generalize dependent (triggered s). intros s0 Hr Ht Hs Htr.
  rewrite (wait_while_exits 0 k); cbn [reads ticks sends trace];
    [|rewrite Hr; auto|rewrite Hr; auto|auto].
  rewrite (wait_while_exits 1 j); cbn [reads ticks sends trace]; [| | |auto].
  - unfold ret, distance_of_duration. rewrite Hr, Ht, Hs, Htr. f_equal.
    + f_equal. f_equal. f_equal.
      * destruct j; f_equal; lia.
      * destruct k; f_equal; lia.
    + f_equal; lia.
  - intros i Hi. rewrite Hr. rewrite <- (Hj0 i Hi). f_equal. lia.
  - rewrite Hr. intros H. apply Hj1. rewrite <- H. f_equal. lia.
Qed.

End GetDistance.

Lemma emitted_app {A : Type} (s : state) (o : outcome A) (evs : list event) :
  trace (state_of o) = trace s ++ evs -> emitted s o = evs.
Proof.
  intros H. unfold emitted. rewrite H, skipn_app, skipn_all, Nat.sub_diag.
  reflexivity.
Qed.

Section Sweep.

Variable E : env.
Variable float_repr : PyFloat.t -> string.

Lemma sweep_iteration_cases (fuel : nat) (a d : Z) (s : state) :
  match sweep_iteration E float_repr fuel a d s with
  | Returns next s' =>
      next = adjust a d /\ send_result E (sends s) = None /\
      sends s' = S (sends s) /\
      exists dist, measured E dist /\
        trace s' = trace s ++ iteration_events float_repr (a, dist)
  | Raises e s' =>
      send_result E (sends s) = Some e /\ sends s' = S (sends s) /\
      trace s' = trace s ++ ServoAngle a :: trigger_events
  | OutOfFuel s' =>
      sends s' = sends s /\
      trace s' = trace s ++ ServoAngle a :: trigger_events
  end.
Proof.
  unfold sweep_iteration, bind, servo_set_angle, do.
  pose proof (get_distance_inv E fuel (emit (ServoAngle a) s)) as G.
  destruct (get_distance E fuel _) as [dist s1| |s1]; [|contradiction|].
  - destruct G as (Ht & Hs & i & j & _ & Hij & Hd).
    unfold websocket_send. simpl in Hs. rewrite Hs.
    destruct (send_result E (sends s)) as [e|] eqn:Hsend.
    + repeat split; auto. simpl. rewrite Ht. simpl.
      rewrite <- app_assoc. reflexivity.
    + unfold asyncio_sleep, do, ret. simpl. repeat split; auto.
      exists dist. split; [exists i, j; auto|].
      rewrite Ht. simpl. unfold iteration_events, reading. simpl.
      rewrite <- !app_assoc. reflexivity.
  - destruct G as (Ht & Hs). split; [exact Hs|].
    rewrite Ht. simpl. rewrite <- app_assoc. reflexivity.
Qed.

Lemma sweep_iteration_responds (fuel : nat) (a d : Z) (s s' : state) :
  echo_responds E fuel ->
  sweep_iteration E float_repr fuel a d s <> OutOfFuel s'.
Proof.
  intros R. unfold sweep_iteration, bind, servo_set_angle, do.
  destruct (R (reads (emit (ServoAngle a) s))) as (k & j & Hk & Hj & Hh & Hl).
  rewrite (get_distance_exact E fuel k j) by assumption.
  unfold websocket_send. cbn [sends emit].
  destruct (send_result E (sends s)); cbv beta; discriminate.
Qed.

Lemma sweep_loop_inv (fuel : nat) :
  forall (iterations k : nat) (s : state),
    let o := sweep_loop E float_repr iterations fuel
               (fst (sweep_state k)) (snd (sweep_state k)) s in
    (forall x s', o <> Returns x s') /\
    exists (ds : list PyFloat.t) (tail : list event),
      Forall (measured E) ds /\
      trace (state_of o) = trace s ++ iterations_events float_repr k ds ++ tail /\
      (tail = ServoAngle (angle_at (k + List.length ds)) :: trigger_events \/
       (tail = [] /\ exists s', o = OutOfFuel s')).
Proof.
  induction iterations as [|n IH]; intros k s; simpl.
  - split; [discriminate|]. exists [], []. simpl. rewrite app_nil_r.
    repeat split; auto. right. split; [reflexivity|]. exists s. reflexivity.
  - unfold bind.
    pose proof (sweep_iteration_cases fuel (fst (sweep_state k))
                  (snd (sweep_state k)) s) as C.
    destruct (sweep_iteration E float_repr fuel _ _ s) as [next s1|e s1|s1].
    + destruct C as (-> & _ & _ & dist & Hm & Ht).
      specialize (IH (S k) s1). simpl in IH.
      destruct IH as (Hnr & ds & tail & Hds & Htr & Htail).
      split; [exact Hnr|].
      exists (dist :: ds), tail. split; [constructor; auto|]. split.
      * rewrite Htr, Ht, iterations_events_cons, <- !app_assoc. reflexivity.
      * simpl List.length. rewrite Nat.add_succ_r. exact Htail.
    + destruct C as (_ & _ & Ht). split; [discriminate|].
      exists [], (ServoAngle (angle_at k) :: trigger_events).
      simpl. rewrite Nat.add_0_r. auto.
    + destruct C as (_ & Ht). split; [discriminate|].
      exists [], (ServoAngle (angle_at k) :: trigger_events).
      simpl. rewrite Nat.add_0_r. auto.
Qed.

Lemma sweep_loop_until_failure (fuel : nat) :
  echo_responds E fuel ->
  forall (n iterations k : nat) (s : state) (e : exn),
    (forall i : nat, (i < n)%nat -> send_result E (sends s + i) = None) ->
    send_result E (sends s + n) = Some e ->
    (n < iterations)%nat ->
    exists (ds : list PyFloat.t) (s' : state),
      List.length ds = n /\ Forall (measured E) ds /\
      sweep_loop E float_repr iterations fuel
        (fst (sweep_state k)) (snd (sweep_state k)) s = Raises e s' /\
      trace s' = trace s ++ iterations_events float_repr k ds
                   ++ ServoAngle (angle_at (k + n)) :: trigger_events.
Proof.
  intros R. induction n as [|n IH]; intros iterations k s e Hok Hfail Hit;
    (destruct iterations as [|iterations]; [lia|]); simpl; unfold bind;
    pose proof (sweep_iteration_cases fuel (fst (sweep_state k))
                  (snd (sweep_state k)) s) as C;
    pose proof (fun s' => sweep_iteration_responds fuel (fst (sweep_state k))
                  (snd (sweep_state k)) s s' R) as NF;
    destruct (sweep_iteration E float_repr fuel _ _ s) as [next s1|e1 s1|s1];
    try (exfalso; apply (NF s1); reflexivity).
  - destruct C as (_ & Hnone & _). rewrite Nat.add_0_r in Hfail. congruence.
  - destruct C as (Hsome & _ & Ht). rewrite Nat.add_0_r in *.
    assert (e1 = e) by congruence. subst e1.
    exists [], s1. simpl. auto.
  - destruct C as (-> & _ & Hs & dist & Hm & Ht).
    destruct (IH iterations (S k) s1 e) as (ds & s' & Hlen & Hds & Hrun & Htr).
    + intros i Hi. rewrite Hs. rewrite <- (Hok (S i)) by lia. f_equal. lia.
    + rewrite Hs. rewrite <- Hfail. f_equal. lia.
    + lia.
    + exists (dist :: ds), s'. simpl in Hrun. rewrite Hrun.
      split; [simpl; f_equal; exact Hlen|]. split; [constructor; auto|]. split; [reflexivity|].
      rewrite Htr, Ht, iterations_events_cons, <- !app_assoc.
      replace (k + S n)%nat with (S k + n)%nat by lia. reflexivity.
  - destruct C as (Hsome & _). specialize (Hok O ltac:(lia)).
    rewrite Nat.add_0_r in Hok. congruence.
Qed.

End Sweep.

(** ** [handler] *)

Section Handler.

Variable E : env.
Variable float_repr : PyFloat.t -> string.

Lemma handler_inv (iterations fuel : nat) (s : state) :
  let o := handler E float_repr iterations fuel s in
  (forall s', o <> Raises ConnectionClosed s') /\
  exists (ds : list PyFloat.t) (tail : list event),
    Forall (measured E) ds /\
    trace (state_of o) =
      trace s ++ Print "Client connected"
        :: iterations_events float_repr 0 ds ++ tail /\
    (tail = [] \/
     tail = ServoAngle (angle_at (List.length ds)) :: trigger_events \/
     tail = ServoAngle (angle_at (List.length ds)) :: trigger_events
              ++ [Print "Client disconnected"]).
Proof.
  unfold handler, bind, print, do, try_except_closed, sweep_sensor.
  pose proof (sweep_loop_inv E float_repr fuel iterations 0
                (emit (Print "Client connected") s)) as L.
  cbv zeta in L. change (fst (sweep_state 0)) with 0 in L.
  change (snd (sweep_state 0)) with 1 in L.
  destruct L as (Hnr & ds & tail & Hds & Htr & Htail).
  destruct (sweep_loop E float_repr iterations fuel 0 1 _) as [x s1|e s1|s1].
  - exfalso. apply (Hnr x s1). reflexivity.
  - destruct Htail as [->|[_ [s' Hs']]]; [|discriminate].
    simpl in Htr. rewrite <- app_assoc in Htr. simpl in Htr.
    destruct e as [|name]; simpl.
    + split; [discriminate|]. exists ds, (ServoAngle (angle_at (List.length ds)) :: trigger_events ++ [Print "Client disconnected"]).
      split; [exact Hds|]. split; [|auto].
      rewrite Htr, <- app_assoc. simpl. rewrite <- app_assoc. reflexivity.
    + split; [discriminate|]. exists ds, (ServoAngle (angle_at (List.length ds)) :: trigger_events).
      auto.
  - simpl. split; [discriminate|]. exists ds, tail. split; [exact Hds|].
    simpl in Htr. rewrite <- app_assoc in Htr. split; [exact Htr|].
    destruct Htail as [->|[-> _]]; auto.
Qed.

Lemma handler_servo_angles (iterations fuel : nat) (s : state) :
  exists len : nat,
    servo_angles (emitted s (handler E float_repr iterations fuel s)) =
      map angle_at (seq 0 len).
Proof.
  destruct (handler_inv iterations fuel s) as (_ & ds & tail & _ & Htr & Htail).
  rewrite (emitted_app _ _ _ Htr).
  change (servo_angles (Print "Client connected" :: ?l)) with (servo_angles l).
  rewrite servo_angles_app, servo_angles_iterations.
  destruct Htail as [->|[->| ->]].
  - exists (List.length ds). apply app_nil_r.
  - exists (S (List.length ds)). rewrite seq_S, map_app. reflexivity.
  - exists (S (List.length ds)). rewrite seq_S, map_app. reflexivity.
Qed.

Lemma handler_messages (iterations fuel : nat) (s : state) :
  exists ds : list PyFloat.t,
    Forall (measured E) ds /\
    messages (emitted s (handler E float_repr iterations fuel s)) =
      map (fun ad => reading float_repr (fst ad) (snd ad))
        (combine (map angle_at (seq 0 (List.length ds))) ds).
Proof.
  destruct (handler_inv iterations fuel s) as (_ & ds & tail & Hds & Htr & Htail).
  exists ds. split; [exact Hds|].
  rewrite (emitted_app _ _ _ Htr).
  change (messages (Print "Client connected" :: ?l)) with (messages l).
  rewrite messages_app, messages_iterations.
  destruct Htail as [->|[->| ->]]; apply app_nil_r.
Qed.

Lemma handler_until_failure (fuel n iterations : nat) (s : state) (e : exn) :
  echo_responds E fuel ->
  (forall i : nat, (i < n)%nat -> send_result E (sends s + i) = None) ->
  send_result E (sends s + n) = Some e ->
  (n < iterations)%nat ->
  exists (ds : list PyFloat.t) (s' : state),
    List.length ds = n /\ Forall (measured E) ds /\
    handler E float_repr iterations fuel s =
      match e with
      | ConnectionClosed => Returns tt (emit (Print "Client disconnected") s')
      | _ => Raises e s'
      end /\
    trace s' = trace s ++ Print "Client connected"
                 :: iterations_events float_repr 0 ds
                 ++ ServoAngle (angle_at n) :: trigger_events.
Proof.
  intros R Hok Hfail Hit.
  destruct (sweep_loop_until_failure E float_repr fuel R n iterations 0
              (emit (Print "Client connected") s) e Hok Hfail Hit)
    as (ds & s' & Hlen & Hds & Hrun & Htr).
  exists ds, s'. split; [exact Hlen|]. split; [exact Hds|]. split.
  - unfold handler, bind, print, do, try_except_closed, sweep_sensor.
    change (fst (sweep_state 0)) with 0 in Hrun.
    change (snd (sweep_state 0)) with 1 in Hrun.
    rewrite Hrun. destruct e; reflexivity.
  - rewrite Htr. simpl. rewrite <- app_assoc. reflexivity.
Qed.

End Handler.

(** ** Strings *)

Lemma string_app_assoc (a b c : string) :
  ((a ++ b) ++ c)%string = (a ++ b ++ c)%string.
Proof. induction a as [|ch a IH]; simpl; [reflexivity|]. rewrite IH. reflexivity. Qed.

Lemma reading_shape (float_repr : PyFloat.t -> string) (angle : Z) (dist : PyFloat.t) :
  reading float_repr angle dist =
    ("{" ++ dquote ++ "angle" ++ dquote ++ ": "
       ++ NilZero.string_of_int (Z.to_int angle) ++ ", "
       ++ dquote ++ "distance" ++ dquote ++ ": "
       ++ json_float float_repr dist ++ "}")%string.
Proof.
  unfold reading, json_dumps, json_item, json_value. cbn [map String.concat fst snd].
  rewrite !string_app_assoc. reflexivity.
Qed.

(** ** Environments *)

Lemma alternating_echo_responds (E : env) :
  (forall i : nat, echo E i = if Nat.even i then 1 else 0) ->
  echo_responds E 2.
Proof.
  intros H r. unfold high_at, low_at.
  destruct (Nat.even r) eqn:Hr.
  - exists O, O. repeat split; try lia.
    + rewrite H, Nat.add_0_r, Hr. discriminate.
    + rewrite H. replace (r + 0 + 1 + 0)%nat with (S r) by lia.
      rewrite Nat.even_succ, <- Nat.negb_even, Hr. discriminate.
  - exists 1%nat, O. repeat split; try lia.
    + intros i Hi. assert (i = O) by lia. subst i.
      rewrite H, Nat.add_0_r, Hr. reflexivity.
    + rewrite H. replace (r + 1)%nat with (S r) by lia.
      rewrite Nat.even_succ, <- Nat.negb_even, Hr. discriminate.
    + rewrite H. replace (r + 1 + 1 + 0)%nat with (S (S r)) by lia.
      rewrite Nat.even_succ_succ, Hr. discriminate.
Qed.

Lemma first_other_level (f : nat -> Z) (v : Z) :
  forall (k r : nat), f (r + k)%nat <> v ->
    exists k0 : nat, (k0 <= k)%nat /\
      (forall i : nat, (i < k0)%nat -> f (r + i)%nat = v) /\
      f (r + k0)%nat <> v.
Proof.
  induction k as [|k IH]; intros r Hk.
  - exists O. repeat split; auto. intros i Hi. lia.
  - destruct (Z.eq_dec (f r) v) as [Heq|Hne].
    + destruct (IH (S r)) as (k0 & Hle & Hlo & Hhi).
      * replace (S r + k)%nat with (r + S k)%nat by lia. exact Hk.
      * exists (S k0). split; [lia|]. split.
        -- intros i Hi. destruct i as [|i].
           ++ rewrite Nat.add_0_r. exact Heq.
           ++ replace (r + S i)%nat with (S r + i)%nat by lia. apply Hlo. lia.
        -- replace (r + S k0)%nat with (S r + k0)%nat by lia. exact Hhi.
    + exists O. split; [lia|]. split; [intros i Hi; lia|].
      rewrite Nat.add_0_r. exact Hne.
Qed.

(** ** More on signs: results that are no NaN, non-positive differences *)

Lemma sign_is_not_nan (s : bool) (x : spec_float) :
  PyFloat.sign_is s x = true -> x <> S754_nan.
Proof. intros H ->. discriminate. Qed.

Lemma sign_is_nonpos (x : spec_float) :
  PyFloat.sign_is true x = true -> PyFloat.nonpos x = true.
Proof. destruct x as [s|s| |s m e]; simpl; try discriminate; destruct s; auto. Qed.

Lemma binary_normalize_nonpos (m e : Z) :
  m <= 0 -> PyFloat.nonpos (binary_normalize prec emax m e false) = true.
Proof.
  intros H. destruct m as [|p|p]; simpl; [reflexivity|lia|].
  apply sign_is_nonpos, binary_round_sign.
Qed.

Lemma binary_normalize_not_nan (m e : Z) (szero : bool) :
  binary_normalize prec emax m e szero <> S754_nan.
Proof.
  destruct m as [|p|p]; simpl; [discriminate| |];
    eapply sign_is_not_nan, binary_round_sign.
Qed.

Lemma sub_finite_not_nan (x y : spec_float) :
  PyFloat.is_finite x = true -> PyFloat.is_finite y = true ->
  SF64sub y x <> S754_nan.
Proof.
  destruct x as [sx|sx| |sx mx ex]; try discriminate;
  destruct y as [sy|sy| |sy my ey]; try discriminate; intros _ _;
    unfold SF64sub, SFsub.
  - destruct sx, sy; discriminate.
  - apply binary_normalize_not_nan.
Qed.

Lemma mul_const_not_nan (x : spec_float) (m : positive) (e : Z) :
  x <> S754_nan -> SF64mul x (S754_finite false m e) <> S754_nan.
Proof.
  destruct x as [s|s| |s mx ex]; intros H; try discriminate; [contradiction|].
  unfold SF64mul, SFmul. eapply sign_is_not_nan, binary_round_aux_sign. lia.
Qed.

Lemma round_not_nan (x : spec_float) (ndigits : nat) :
  x <> S754_nan -> PyFloat.round x ndigits <> S754_nan.
Proof.
  destruct x as [s|s| |s m e]; intros H; try discriminate; [contradiction|].
  simpl. unfold PyFloat.of_decimal.
  destruct (PyFloat.scaled_digits ndigits m e); try discriminate.
  eapply sign_is_not_nan, div_sign.
Qed.

Lemma distance_not_nan (x y : spec_float) :
  PyFloat.is_finite x = true -> PyFloat.is_finite y = true ->
  distance_of_duration (PyFloat.sub y x) <> S754_nan.
Proof.
  intros Fx Fy. unfold distance_of_duration. apply round_not_nan.
  change (PyFloat.lit 17150) with (S754_finite false 4714156104089600 (-38)).
  apply mul_const_not_nan, sub_finite_not_nan; assumption.
Qed.

Lemma sub_nonpos (x y : spec_float) :
  valid_binary x = true -> valid_binary y = true ->
  PyFloat.is_finite x = true -> PyFloat.is_finite y = true ->
  SFleb y x = true ->
  PyFloat.nonpos (SF64sub y x) = true.
Proof.
  intros Vx Vy Fx Fy H.
  destruct x as [sx|sx| |sx mx ex]; try discriminate;
  destruct y as [sy|sy| |sy my ey]; try discriminate.
  - destruct sx, sy; reflexivity.
  - unfold SFleb, SFcompare in H. destruct sy; [reflexivity|discriminate].
  - unfold SFleb, SFcompare in H. destruct sx; [discriminate|reflexivity].
  - unfold SF64sub, SFsub. cbv zeta. apply binary_normalize_nonpos.
    simpl in Vx, Vy. unfold SFleb, SFcompare in H.
    change (Pos.compare_cont Eq my mx) with (my ?= mx)%positive in H.
    destruct sx, sy; simpl cond_Zopp; try discriminate.
    + pose proof (aligned_diff_nonneg mx my ex ey Vx Vy) as D.
      rewrite (Z.min_comm ey ex).
      destruct (ey ?= ex) eqn:C; try discriminate.
      * apply Z.compare_eq in C.
        destruct (my ?= mx)%positive eqn:C'; try discriminate.
        -- apply Pos.compare_eq in C'. subst.
           specialize (D ltac:(right; split; [reflexivity|apply Pos.le_refl])). lia.
        -- apply Pos.compare_gt_iff in C'.
           specialize (D ltac:(right; split; [lia|apply Pos.lt_le_incl; exact C'])). lia.
      * apply Z.compare_gt_iff in C. specialize (D ltac:(left; lia)). lia.
    + pose proof (aligned_diff_nonneg my mx ey ex Vy Vx) as D.
      destruct (ey ?= ex) eqn:C; try discriminate.
      * apply Z.compare_eq in C.
        destruct (my ?= mx)%positive eqn:C'; try discriminate.
        -- apply Pos.compare_eq in C'. subst.
           specialize (D ltac:(right; split; [reflexivity|apply Pos.le_refl])). lia.
        -- apply Pos.compare_lt_iff in C'.
           specialize (D ltac:(right; split; [lia|apply Pos.lt_le_incl; exact C'])). lia.
      * change (ey < ex) in C. specialize (D ltac:(left; lia)). lia.
Qed.

Lemma nonpos_leb_zero (x : spec_float) :
  PyFloat.nonpos x = true -> SFleb x (S754_zero false) = true.
Proof. destruct x as [s|s| |s m e]; simpl; try discriminate; destruct s; auto; discriminate. Qed.

Lemma mul_const_nonpos (x : spec_float) (m : positive) (e : Z) :
  PyFloat.nonpos x = true -> PyFloat.nonpos (SF64mul x (S754_finite false m e)) = true.
Proof.
  destruct x as [s|s| |s mx ex]; simpl; try discriminate.
  - reflexivity.
  - destruct s; try discriminate. reflexivity.
  - destruct s; try discriminate. intros _.
    apply sign_is_nonpos.
    unfold SF64mul, SFmul. apply binary_round_aux_sign. lia.
Qed.

Lemma round_nonpos (x : spec_float) (ndigits : nat) :
  PyFloat.nonpos x = true -> PyFloat.nonpos (PyFloat.round x ndigits) = true.
Proof.
  destruct x as [s|s| |s m e]; simpl; auto.
  destruct s; try discriminate. intros _.
  unfold PyFloat.of_decimal.
  destruct (PyFloat.scaled_digits ndigits m e); try reflexivity.
  apply sign_is_nonpos, div_sign.
Qed.

Lemma distance_nonpos (x y : spec_float) :
  valid_binary x = true -> valid_binary y = true ->
  PyFloat.is_finite x = true -> PyFloat.is_finite y = true ->
  SFleb y x = true ->
  PyFloat.nonpos (distance_of_duration (PyFloat.sub y x)) = true.
Proof.
  intros. unfold distance_of_duration. apply round_nonpos.
  change (PyFloat.lit 17150) with (S754_finite false 4714156104089600 (-38)).
  apply mul_const_nonpos, sub_nonpos; assumption.
Qed.

(** ** More on [get_distance]: the inputs it consumes *)

Section Accounting.

Variable E : env.



Lemma get_distance_spins (fuel : nat) (s : state) :
  never_high E (reads s) ->
  exists s' : state,
    get_distance E fuel s = OutOfFuel s' /\
    trace s' = trace s ++ trigger_events /\ sends s' = sends s.
Proof.
  intros H.
  pose proof (get_distance_inv E fuel s) as G.
  assert (D : exists s', get_distance E fuel s = OutOfFuel s').
  { unfold get_distance, bind, gpio_write, time_sleep, do, time_time.
    fold (triggered s).
    match goal with |- context [wait_while E 0 fuel ?l ?st] =>
      destruct (wait_while_spins E 0 fuel l st) as (s' & He & _) end.
    - exact H.
    - rewrite He. exists s'. reflexivity. }
  destruct D as (s' & D). rewrite D in G. exists s'. tauto.
Qed.

End Accounting.

(** ** More on the loop: where its exceptions come from *)

Section LoopOutcomes.

Variable E : env.
Variable float_repr : PyFloat.t -> string.

Lemma sweep_loop_all_delivered (fuel : nat) :
  echo_responds E fuel ->
  forall (iterations k : nat) (s : state),
    (forall i : nat, (i < iterations)%nat ->
       send_result E (sends s + i) = None) ->
    exists (ds : list PyFloat.t) (s' : state),
      List.length ds = iterations /\ Forall (measured E) ds /\
      sweep_loop E float_repr iterations fuel
        (fst (sweep_state k)) (snd (sweep_state k)) s = OutOfFuel s' /\
      trace s' = trace s ++ iterations_events float_repr k ds.
Proof.
  intros R. induction iterations as [|it IH]; intros k s Hok; simpl.
  - exists [], s. simpl. rewrite app_nil_r. auto.
  - unfold bind.
    pose proof (sweep_iteration_cases E float_repr fuel (fst (sweep_state k))
                  (snd (sweep_state k)) s) as C.
    pose proof (fun s' => sweep_iteration_responds E float_repr fuel
                  (fst (sweep_state k)) (snd (sweep_state k)) s s' R) as NF.
    destruct (sweep_iteration E float_repr fuel _ _ s) as [next s1|e1 s1|s1].
    + destruct C as (-> & _ & Hs & dist & Hm & Ht).
      destruct (IH (S k) s1) as (ds & s' & Hlen & Hds & Hrun & Htr).
      * intros i Hi. rewrite Hs. rewrite <- (Hok (S i)) by lia. f_equal. lia.
      * exists (dist :: ds), s'. simpl in Hrun.
        split; [simpl; f_equal; exact Hlen|]. split; [constructor; auto|].
        split; [exact Hrun|].
        rewrite Htr, Ht, iterations_events_cons, <- !app_assoc. reflexivity.
    + destruct C as (Hsome & _). specialize (Hok O ltac:(lia)).
      rewrite Nat.add_0_r in Hok. congruence.
    + exfalso. apply (NF s1). reflexivity.
Qed.





End LoopOutcomes.

(** ** The angles of any run of the loop *)

Lemma sweep_loop_angles
    (E : env) (float_repr : PyFloat.t -> string) (fuel : nat) :
  forall (iterations k : nat) (s : state),
    exists (len : nat) (evs : list event),
      (len <= iterations)%nat /\ ((0 < iterations)%nat -> (0 < len)%nat) /\
      trace (state_of (sweep_loop E float_repr iterations fuel
                         (fst (sweep_state k)) (snd (sweep_state k)) s)) =
        trace s ++ evs /\
      servo_angles evs = map angle_at (seq k len).
Proof.
  induction iterations as [|n IH]; intros k s; simpl.
  - exists O, []. rewrite app_nil_r. repeat split; auto.
  - unfold bind.
    pose proof (sweep_iteration_cases E float_repr fuel (fst (sweep_state k))
                  (snd (sweep_state k)) s) as C.
    destruct (sweep_iteration E float_repr fuel _ _ s) as [next s1|e s1|s1].
    + destruct C as (-> & _ & _ & dist & _ & Ht).
      destruct (IH (S k) s1) as (len & evs & Hle & _ & Htr & Hsa).
      simpl in Htr.
      exists (S len), (iteration_events float_repr (angle_at k, dist) ++ evs).
      split; [lia|]. split; [lia|]. split.
      * rewrite Htr, Ht, <- app_assoc. reflexivity.
      * rewrite servo_angles_app, Hsa. reflexivity.
    + destruct C as (_ & _ & Ht).
      exists 1%nat, (ServoAngle (angle_at k) :: trigger_events).
      split; [lia|]. split; [lia|]. split; [exact Ht|reflexivity].
    + destruct C as (_ & Ht).
      exists 1%nat, (ServoAngle (angle_at k) :: trigger_events).
      split; [lia|]. split; [lia|]. split; [exact Ht|reflexivity].
Qed.

(** ** The startup and the exit of the process *)


(** * The claims *)

(** C1: the angles of the sweep are the triangle wave over [0, 180] with
    step 5.  The angle that [sweep_sensor] holds in iteration [n] is
    [triangle_wave step 180 n]; in the first half of each period of 72
    iterations the next angle is the angle plus the step, in the second half
    it is the angle minus the step, and the turning points are exactly 180
    and 0.  For every number of iterations, a run of [sweep_sensor] that
    gets through them gives the servo, and puts into its messages, exactly
    the first angles of the wave, one per iteration; and the angles of any
    run at all, however it ends, are an initial segment of the wave, not
    empty when the loop is entered. *)
Theorem sweep_is_triangle_wave :
  (forall n : nat, angle_at n = triangle_wave step 180 n) /\
  (forall n : nat,
     let m := Z.of_nat n mod 72 in
     (m < 36 -> angle_at n < 180 /\ angle_at (S n) = angle_at n + step) /\
     (36 <= m -> 0 < angle_at n /\ angle_at (S n) = angle_at n - step) /\
     (angle_at n = 180 <-> m = 36) /\
     (angle_at n = 0 <-> m = 0)) /\
  (forall (E : env) (float_repr : PyFloat.t -> string)
          (fuel iterations : nat) (s : state),
     echo_responds E fuel ->
     (forall i : nat, (i < iterations)%nat ->
        send_result E (sends s + i) = None) ->
     servo_angles (emitted s (sweep_sensor E float_repr iterations fuel s)) =
       map (triangle_wave step 180) (seq 0 iterations) /\
     exists ds : list PyFloat.t,
       List.length ds = iterations /\
       messages (emitted s (sweep_sensor E float_repr iterations fuel s)) =
         map (fun ad => reading float_repr (fst ad) (snd ad))
           (combine (map (triangle_wave step 180) (seq 0 iterations)) ds)) /\
  (forall (E : env) (float_repr : PyFloat.t -> string)
          (iterations fuel : nat) (s : state),
     exists len : nat,
       (len <= iterations)%nat /\
       ((0 < iterations)%nat -> (0 < len)%nat) /\
       servo_angles (emitted s (sweep_sensor E float_repr iterations fuel s)) =
         map (triangle_wave step 180) (seq 0 len)).
Proof.
  split; [exact angle_at_wave|]. split; [|split].
  - intros n. rewrite !angle_at_wave. apply triangle_wave_steps.
  - intros E float_repr fuel iterations s R Hok.
    destruct (sweep_loop_all_delivered E float_repr fuel R iterations 0 s Hok)
      as (ds & s' & Hlen & _ & Hrun & Htr).
    change (fst (sweep_state 0)) with 0 in Hrun.
    change (snd (sweep_state 0)) with 1 in Hrun.
    assert (He : emitted s (sweep_sensor E float_repr iterations fuel s) =
                 iterations_events float_repr 0 ds).
    { apply emitted_app. unfold sweep_sensor. rewrite Hrun. exact Htr. }
    rewrite He. split.
    + rewrite servo_angles_iterations. replace (List.length ds) with iterations.
      apply map_ext. exact angle_at_wave.
    + exists ds. split; [exact Hlen|].
      rewrite messages_iterations. replace (List.length ds) with iterations.
      rewrite (map_ext _ _ angle_at_wave). reflexivity.
  - intros E float_repr iterations fuel s.
    destruct (sweep_loop_angles E float_repr fuel iterations 0 s)
      as (len & evs & Hle & Hpos & Htr & Hsa).
    exists len. split; [exact Hle|]. split; [exact Hpos|].
    unfold sweep_sensor.
    change (sweep_loop E float_repr iterations fuel 0 1 s)
      with (sweep_loop E float_repr iterations fuel
              (fst (sweep_state 0)) (snd (sweep_state 0)) s).
    rewrite (emitted_app _ _ _ Htr), Hsa. apply map_ext. exact angle_at_wave.
Qed.

Lemma sweep_is_triangle_wave_witness :
  ((angle_at 3 < 180 /\ angle_at 4 = angle_at 3 + step) /\
   (0 < angle_at 40 /\ angle_at 41 = angle_at 40 - step)) /\
  servo_angles (emitted initial_state
                  (sweep_sensor ms_env demo_repr 80 2 initial_state)) =
    map (triangle_wave step 180) (seq 0 80).
Proof.
  destruct sweep_is_triangle_wave as (_ & H & G & _). split; [split|].
  - apply (H 3%nat). reflexivity.
  - apply (H 40%nat). discriminate.
  - apply (G ms_env demo_repr 2%nat 80%nat initial_state).
    + apply alternating_echo_responds. intros i. reflexivity.
    + intros i _. reflexivity.
Defined.

(** C2: every angle given to the servo lies in [0, 180]: the update of lines
    67-73 yields an angle in this range from any angle and direction, so does
    every iteration of the sweep, and so does every [servo.angle = a] of
    every run of the handler. *)
Theorem servo_angle_in_range :
  (forall angle direction : Z, 0 <= fst (adjust angle direction) <= 180) /\
  (forall n : nat, 0 <= angle_at n <= 180) /\
  (forall (E : env) (float_repr : PyFloat.t -> string)
          (iterations fuel : nat) (s : state),
     Forall (fun a => 0 <= a <= 180)
       (servo_angles (emitted s (handler E float_repr iterations fuel s)))).
Proof.
  split; [exact adjust_range|]. split; [exact angle_at_range|].
  intros E float_repr iterations fuel s.
  destruct (handler_servo_angles E float_repr iterations fuel s) as (len & H).
  rewrite H. apply Forall_forall. intros a Ha.
  apply in_map_iff in Ha. destruct Ha as (n & <- & _). apply angle_at_range.
Qed.

(** C3: the distance is a function of the pulse duration alone: when the
    echo goes high at read [k] and low again [j] reads later, [get_distance]
    returns [pulse_duration * 17150] rounded to 2 places, where
    [pulse_duration = pulse_end - pulse_start] is the difference of the two
    clock readings; for a duration of 0.001 s it is 17.15. *)
Theorem get_distance_of_pulse_duration
    (E : env) (fuel k j : nat) (s : state) :
  high_at E (reads s) k -> low_at E (reads s + k + 1) j ->
  (k < fuel)%nat -> (j < fuel)%nat ->
  let pulse_start := clock E (ticks s + k) in
  let pulse_end := clock E (ticks s + k + 1 + j) in
  let pulse_duration := PyFloat.sub pulse_end pulse_start in
  exists s' : state,
    get_distance E fuel s =
      Returns (PyFloat.round (PyFloat.mul pulse_duration (PyFloat.lit 17150)) 2) s'
    /\ (pulse_duration = PyFloat.lit 0.001 ->
        get_distance E fuel s = Returns (PyFloat.lit 17.15) s').
Proof.
  intros Hk Hj Hkf Hjf pulse_start pulse_end pulse_duration.
  eexists. rewrite (get_distance_exact E fuel k j s Hk Hj Hkf Hjf).
  split; [reflexivity|].
  fold pulse_start pulse_end pulse_duration. intros ->.
  f_equal.
Qed.

Lemma get_distance_of_pulse_duration_witness :
  exists s' : state,
    get_distance ms_env 2 initial_state = Returns (PyFloat.lit 17.15) s'.
Proof.
  destruct (get_distance_of_pulse_duration ms_env 2 0 0 initial_state)
    as (s' & _ & H).
  - split; [intros i Hi; lia|discriminate].
  - split; [intros i Hi; lia|discriminate].
  - lia.
  - lia.
  - exists s'. apply H. reflexivity.
Defined.

(** C4: every message that a run of the handler sends is [json.dumps] of a
    dictionary with exactly the keys "angle" and "distance", in this order:
    the text is [{"angle": a, "distance": d}] where [a] is an integer in
    [0, 180] and [d] is a float that [round(.., 2)] returned. *)
Theorem messages_are_readings
    (E : env) (float_repr : PyFloat.t -> string)
    (iterations fuel : nat) (s : state) :
  Forall
    (fun msg : string =>
       exists (angle : Z) (dist x : PyFloat.t),
         msg = json_dumps float_repr
                 [("angle"%string, PyInt angle);
                  ("distance"%string, PyFloatV dist)] /\
         0 <= angle <= 180 /\
         dist = PyFloat.round x 2 /\
         msg = ("{" ++ dquote ++ "angle" ++ dquote ++ ": "
                  ++ NilZero.string_of_int (Z.to_int angle) ++ ", "
                  ++ dquote ++ "distance" ++ dquote ++ ": "
                  ++ json_float float_repr dist ++ "}")%string)
    (messages (emitted s (handler E float_repr iterations fuel s))).
Proof.
  destruct (handler_messages E float_repr iterations fuel s) as (ds & Hds & ->).
  apply Forall_forall. intros msg Hmsg.
  apply in_map_iff in Hmsg. destruct Hmsg as ([a d] & <- & Hin).
  pose proof (in_combine_l _ _ _ _ Hin) as Ha.
  pose proof (in_combine_r _ _ _ _ Hin) as Hd.
  apply in_map_iff in Ha. destruct Ha as (n & <- & _).
  rewrite Forall_forall in Hds. destruct (Hds d Hd) as (i & j & _ & ->).
  cbn [fst snd].
  exists (angle_at n), (distance_of_duration (PyFloat.sub (clock E j) (clock E i))),
    (PyFloat.mul (PyFloat.sub (clock E j) (clock E i)) (PyFloat.lit 17150)).
  split; [reflexivity|]. split; [apply angle_at_range|].
  split; [reflexivity|]. apply reading_shape.
Qed.

(** C5: when a send raises [ConnectionClosed], the handler leaves the loop,
    prints "Client disconnected" and returns; no run of the handler raises
    [ConnectionClosed]; any other exception of a send leaves the handler as
    it is, without the message. *)
Theorem handler_returns_on_disconnect
    (E : env) (float_repr : PyFloat.t -> string)
    (fuel iterations n : nat) (s : state) :
  echo_responds E fuel ->
  (forall i : nat, (i < n)%nat -> send_result E (sends s + i) = None) ->
  (n < iterations)%nat ->
  (send_result E (sends s + n) = Some ConnectionClosed ->
   exists s' : state,
     handler E float_repr iterations fuel s = Returns tt s' /\
     printed (emitted s (handler E float_repr iterations fuel s)) =
       ["Client connected"; "Client disconnected"]%string) /\
  (forall name : string,
     send_result E (sends s + n) = Some (OtherException name) ->
     exists s' : state,
       handler E float_repr iterations fuel s = Raises (OtherException name) s' /\
       printed (emitted s (handler E float_repr iterations fuel s)) =
         ["Client connected"]%string) /\
  (forall s' : state,
     handler E float_repr iterations fuel s <> Raises ConnectionClosed s').
Proof.
  intros R Hok Hit. split; [|split].
  - intros Hfail.
    destruct (handler_until_failure E float_repr fuel n iterations s
                ConnectionClosed R Hok Hfail Hit)
      as (ds & s' & _ & _ & Hrun & Htr).
    exists (emit (Print "Client disconnected") s'). split; [exact Hrun|].
    rewrite Hrun. unfold emitted. cbn [state_of emit trace].
    rewrite Htr, <- app_assoc, skipn_app, skipn_all, Nat.sub_diag.
    cbn [skipn app].
    change (printed (Print "Client connected" :: ?l))
      with ("Client connected"%string :: printed l).
    rewrite !printed_app, printed_iterations. reflexivity.
  - intros name Hfail.
    destruct (handler_until_failure E float_repr fuel n iterations s
                (OtherException name) R Hok Hfail Hit)
      as (ds & s' & _ & _ & Hrun & Htr).
    exists s'. split; [exact Hrun|].
    rewrite Hrun. unfold emitted. cbn [state_of].
    rewrite Htr, skipn_app, skipn_all, Nat.sub_diag.
    cbn [skipn app].
    change (printed (Print "Client connected" :: ?l))
      with ("Client connected"%string :: printed l).
    rewrite !printed_app, printed_iterations. reflexivity.
  - apply handler_inv.
Qed.

Lemma handler_returns_on_disconnect_witness :
  (exists s' : state,
     handler demo_env demo_repr 10 2 initial_state = Returns tt s') /\
  (exists s' : state,
     handler broken_env demo_repr 10 2 initial_state =
       Raises (OtherException "OSError") s').
Proof.
  split.
  - destruct (handler_returns_on_disconnect demo_env demo_repr 2 10 3
                initial_state) as (H & _).
    + apply alternating_echo_responds. intros i. reflexivity.
    + intros i Hi. simpl.
      destruct i as [|[|[|i]]]; [reflexivity|reflexivity|reflexivity|lia].
    + lia.
    + destruct H as (s' & H & _); [reflexivity|]. exists s'. exact H.
  - destruct (handler_returns_on_disconnect broken_env demo_repr 2 10 2
                initial_state) as (_ & H & _).
    + apply alternating_echo_responds. intros i. reflexivity.
    + intros i Hi. simpl.
      destruct i as [|[|i]]; [reflexivity|reflexivity|lia].
    + lia.
    + destruct (H "OSError"%string) as (s' & H' & _); [reflexivity|].
      exists s'. exact H'.
Defined.

Lemma wait_while_stays (E : env) (level : Z) :
  forall (fuel : nat) (last : PyFloat.t) (s : state),
    (forall i : nat, (i < fuel)%nat -> echo E (reads s + i) = level) ->
    exists s', wait_while E level fuel last s = OutOfFuel s'.
Proof.
  induction fuel as [|fuel IH]; intros last s H; simpl.
  - exists s. reflexivity.
  - unfold bind, gpio_read, time_time.
    pose proof (H O ltac:(lia)) as H0. rewrite Nat.add_0_r in H0.
    rewrite H0, Z.eqb_refl.
    apply IH. simpl. intros i Hi. rewrite <- (H (S i)) by lia. f_equal. lia.
Qed.

(** C7: [get_distance] has no timeout.  If the echo line never reads high,
    or reads high at some read and never low afterwards, the call never
    returns, whatever time it is given; if the line reads high at some read
    and low at a later one, the call returns. *)
Theorem get_distance_blocks_without_echo (E : env) (s : state) :
  (never_high E (reads s) -> get_distance_diverges E s) /\
  (forall k : nat,
     high_at E (reads s) k -> never_low E (reads s + k + 1) ->
     get_distance_diverges E s) /\
  ((exists k j : nat, (k < j)%nat /\
      echo E (reads s + k) <> 0 /\ echo E (reads s + j) <> 1) ->
   get_distance_terminates E s).
Proof.
  split; [|split].
  - intros H fuel.
    unfold get_distance, bind, gpio_write, time_sleep, do, time_time.
    fold (triggered s).
    match goal with |- context [wait_while E 0 fuel ?l ?st] =>
      destruct (wait_while_spins E 0 fuel l st) as (s' & He & _) end.
    + exact H.
    + rewrite He. exists s'. reflexivity.
  - intros k [Hlo Hhi] H fuel.
    unfold get_distance, bind, gpio_write, time_sleep, do, time_time.
    fold (triggered s).
    destruct (Nat.lt_ge_cases k fuel) as [Hk|Hk].
    + rewrite (wait_while_exits E 0 k) by (simpl; auto).
      match goal with |- context [wait_while E 1 fuel ?l ?st] =>
        destruct (wait_while_spins E 1 fuel l st) as (s' & He & _) end.
      * intros i. cbn [reads]. change (reads (triggered s)) with (reads s).
        rewrite <- (H i). f_equal. lia.
      * rewrite He. exists s'. reflexivity.
    + match goal with |- context [wait_while E 0 fuel ?l ?st] =>
        pose proof (wait_while_stays E 0 fuel l st) as W end.
      destruct W as (s' & He).
      * intros i Hi. apply Hlo. lia.
      * rewrite He. exists s'. reflexivity.
  - intros (k & j & Hkj & Hk & Hj).
    destruct (first_other_level (echo E) 0 k (reads s) Hk) as (k0 & Hk0 & Hlo & Hhi).
    destruct (first_other_level (echo E) 1 (j - (k0 + 1)) (reads s + k0 + 1))
      as (j0 & Hj0 & Hlo' & Hhi').
    { replace (reads s + k0 + 1 + (j - (k0 + 1)))%nat with (reads s + j)%nat by lia.
      exact Hj. }
    exists (S (k0 + j0)). eexists. eexists. intros fuel Hfuel.
    apply (get_distance_exact E fuel k0 j0 s); [split; auto|split; auto|lia|lia].
Qed.

Lemma get_distance_blocks_without_echo_witness :
  get_distance_diverges silent_env initial_state /\
  get_distance_diverges stuck_env initial_state /\
  get_distance_terminates demo_env initial_state.
Proof.
  split; [|split].
  - apply (get_distance_blocks_without_echo silent_env initial_state).
    intros i. reflexivity.
  - apply (get_distance_blocks_without_echo stuck_env initial_state) with (k := O).
    + split; [intros i Hi; lia|discriminate].
    + intros i. reflexivity.
  - apply (get_distance_blocks_without_echo demo_env initial_state).
    exists O, 1%nat. split; [lia|]. split; discriminate.
Defined.



Lemma sweep_sensor_first
    (E : env) (float_repr : PyFloat.t -> string)
    (iterations fuel : nat) (s : state) :
  (0 < iterations)%nat ->
  exists rest : list event,
    trace (state_of (sweep_sensor E float_repr iterations fuel s)) =
      trace s ++ ServoAngle 0 :: rest.
Proof.
  intros Hit. destruct iterations as [|n]; [lia|].
  unfold sweep_sensor. cbn [sweep_loop]. unfold bind.
  pose proof (sweep_iteration_cases E float_repr fuel 0 1 s) as C.
  destruct (sweep_iteration E float_repr fuel 0 1 s) as [next s1|e s1|s1].
  - destruct C as (-> & _ & _ & dist & _ & Ht).
    destruct (sweep_loop_inv E float_repr fuel n 1 s1)
      as (_ & ds & tail & _ & Htr & _).
    change (adjust 0 1) with (sweep_state 1). rewrite Htr, Ht.
    unfold iteration_events. cbn [fst]. rewrite <- app_assoc.
    eexists. reflexivity.
  - destruct C as (_ & _ & Ht). cbn [state_of]. rewrite Ht. eexists. reflexivity.
  - destruct C as (_ & Ht). cbn [state_of]. rewrite Ht. eexists. reflexivity.
Qed.

(** C9: the sweep belongs to the connection.  From any state of the process,
    in particular the one that any number of earlier connections left, the
    handler first sets the servo to angle 0, and the messages of the
    connection carry the angles 0, 5, 10, ... of the sweep from its start. *)
Theorem sweep_restarts_per_connection
    (E : env) (float_repr : PyFloat.t -> string)
    (iterations fuel : nat) (s : state) :
  (0 < iterations)%nat ->
  (exists rest : list event,
     emitted s (handler E float_repr iterations fuel s) =
       Print "Client connected" :: ServoAngle 0 :: rest) /\
  (exists ds : list PyFloat.t,
     messages (emitted s (handler E float_repr iterations fuel s)) =
       map (fun ad => reading float_repr (fst ad) (snd ad))
         (combine (map angle_at (seq 0 (List.length ds))) ds)) /\
  angle_at 0 = 0 /\ angle_at 1 = 5 /\
  (forall connections : nat,
     let s0 := state_of (serve E float_repr connections iterations fuel s) in
     exists rest : list event,
       emitted s0 (handler E float_repr iterations fuel s0) =
         Print "Client connected" :: ServoAngle 0 :: rest).
Proof.
  intros Hit.
  assert (First : forall s, exists rest : list event,
     emitted s (handler E float_repr iterations fuel s) =
       Print "Client connected" :: ServoAngle 0 :: rest).
  { clear s. intros s.
    destruct (sweep_sensor_first E float_repr iterations fuel
                (emit (Print "Client connected") s) Hit) as (rest & Hr).
    unfold handler, bind, print, do, try_except_closed.
    destruct (sweep_sensor E float_repr iterations fuel _) as [x s1|e s1|s1];
      cbn [state_of] in Hr.
    - exists rest. apply emitted_app. cbn [state_of]. rewrite Hr.
      cbn [emit trace]. rewrite <- app_assoc. reflexivity.
    - destruct e.
      + exists (rest ++ [Print "Client disconnected"]). apply emitted_app.
        cbn [state_of emit trace]. rewrite Hr. cbn [emit trace].
        rewrite <- !app_assoc. reflexivity.
      + exists rest. apply emitted_app. cbn [state_of]. rewrite Hr.
        cbn [emit trace]. rewrite <- app_assoc. reflexivity.
    - exists rest. apply emitted_app. cbn [state_of]. rewrite Hr.
      cbn [emit trace]. rewrite <- app_assoc. reflexivity. }
  split; [apply First|]. split.
  - destruct (handler_messages E float_repr iterations fuel s) as (ds & _ & H).
    exists ds. exact H.
  - split; [reflexivity|]. split; [reflexivity|]. intros connections s0. apply First.
Qed.

Lemma sweep_restarts_per_connection_witness :
  exists rest : list event,
    emitted initial_state (handler demo_env demo_repr 10 2 initial_state) =
      Print "Client connected" :: ServoAngle 0 :: rest.
Proof.
  apply (sweep_restarts_per_connection demo_env demo_repr 10 2 initial_state).
  lia.
Defined.

(** C10: when the clock does not go back during the call (and gives finite
    binary64 values), [pulse_start <= pulse_end], the pulse duration
    [pulse_end - pulse_start] is not negative, and the distance that
    [get_distance] returns is not negative either. *)
Theorem get_distance_nonneg
    (E : env) (fuel : nat) (s s' : state) (d : PyFloat.t) :
  clock_monotone E (ticks s) -> clock_finite E (ticks s) ->
  get_distance E fuel s = Returns d s' ->
  exists pulse_start pulse_end : PyFloat.t,
    PyFloat.leb pulse_start pulse_end = true /\
    PyFloat.leb PyFloat.zero (PyFloat.sub pulse_end pulse_start) = true /\
    d = distance_of_duration (PyFloat.sub pulse_end pulse_start) /\
    PyFloat.leb PyFloat.zero d = true.
Proof.
  intros Hmono Hfin Hrun.
  pose proof (get_distance_inv E fuel s) as G. rewrite Hrun in G.
  destruct G as (_ & _ & i & j & Hi & Hij & ->).
  destruct (Hfin i Hi) as (Vi & Fi).
  destruct (Hfin j ltac:(lia)) as (Vj & Fj).
  pose proof (Hmono i j Hi Hij) as Hle.
  destruct (distance_nonneg (clock E i) (clock E j) Vi Vj Fi Fj Hle) as (N1 & N2).
  exists (clock E i), (clock E j).
  split; [exact Hle|]. split; [apply nonneg_leb_zero, N1|].
  split; [reflexivity|apply nonneg_leb_zero, N2].
Qed.

Lemma get_distance_nonneg_witness :
  PyFloat.leb PyFloat.zero (PyFloat.lit 17.15) = true.
Proof.
  destruct (get_distance_nonneg ms_env 2 initial_state
              {| reads := 2; ticks := 2; sends := 0; trace := trigger_events |}
              (PyFloat.lit 17.15)) as (ps & pe & _ & _ & _ & H).
  - intros i j _ Hij. destruct i as [|i]; destruct j as [|j];
      [reflexivity|reflexivity|lia|reflexivity].
  - intros i _. destruct i; split; reflexivity.
  - reflexivity.
  - exact H.
Defined.




(** * Further properties of the program *)

(** X2: while the echo answers and the sends are delivered, the handler goes
    on: after any number of iterations it is still in the loop, has sent one
    message per iteration and has walked the servo along the triangle
    wave. *)
Theorem handler_runs_while_sends_succeed
    (E : env) (float_repr : PyFloat.t -> string)
    (fuel iterations : nat) (s : state) :
  echo_responds E fuel ->
  (forall i : nat, (i < iterations)%nat -> send_result E (sends s + i) = None) ->
  exists (ds : list PyFloat.t) (s' : state),
    List.length ds = iterations /\
    handler E float_repr iterations fuel s = OutOfFuel s' /\
    emitted s (handler E float_repr iterations fuel s) =
      Print "Client connected" :: iterations_events float_repr 0 ds /\
    List.length (messages (emitted s (handler E float_repr iterations fuel s))) =
      iterations /\
    servo_angles (emitted s (handler E float_repr iterations fuel s)) =
      map (triangle_wave step 180) (seq 0 iterations).
Proof.
  intros R Hok.
  destruct (sweep_loop_all_delivered E float_repr fuel R iterations 0
              (emit (Print "Client connected") s) Hok)
    as (ds & s' & Hlen & _ & Hrun & Htr).
  change (fst (sweep_state 0)) with 0 in Hrun.
  change (snd (sweep_state 0)) with 1 in Hrun.
  assert (Hh : handler E float_repr iterations fuel s = OutOfFuel s').
  { unfold handler, bind, print, do, try_except_closed, sweep_sensor.
    rewrite Hrun. reflexivity. }
  assert (He : emitted s (handler E float_repr iterations fuel s) =
               Print "Client connected" :: iterations_events float_repr 0 ds).
  { apply emitted_app. rewrite Hh. cbn [state_of]. rewrite Htr.
    cbn [emit trace]. rewrite <- app_assoc. reflexivity. }
  exists ds, s'. split; [exact Hlen|]. split; [exact Hh|]. split; [exact He|].
  rewrite He. split.
  - change (messages (Print "Client connected" :: ?l)) with (messages l).
    rewrite messages_iterations, length_map, length_combine, length_map, length_seq.
    rewrite Hlen. apply Nat.min_id.
  - change (servo_angles (Print "Client connected" :: ?l)) with (servo_angles l).
    rewrite servo_angles_iterations. replace (List.length ds) with iterations.
    apply map_ext. exact angle_at_wave.
Qed.

Lemma handler_runs_while_sends_succeed_witness :
  exists s' : state, handler ms_env demo_repr 5 2 initial_state = OutOfFuel s'.
Proof.
  destruct (handler_runs_while_sends_succeed ms_env demo_repr 2 5 initial_state)
    as (ds & s' & _ & H & _).
  - apply alternating_echo_responds. intros i. reflexivity.
  - intros i _. reflexivity.
  - exists s'. exact H.
Defined.

(** X3: a missing echo hangs the connection.  When the echo line never reads
    high, the handler never leaves its first measurement: the servo is set to
    0, the trigger pulse is written, nothing is sent and nothing more is
    printed, whatever time the handler is given. *)
Theorem handler_hangs_without_echo
    (E : env) (float_repr : PyFloat.t -> string)
    (iterations fuel : nat) (s : state) :
  never_high E (reads s) -> (0 < iterations)%nat ->
  exists s' : state,
    handler E float_repr iterations fuel s = OutOfFuel s' /\
    emitted s (handler E float_repr iterations fuel s) =
      Print "Client connected" :: ServoAngle 0 :: trigger_events /\
    sends s' = sends s.
Proof.
  intros H Hit. destruct iterations as [|it]; [lia|].
  destruct (get_distance_spins E fuel
              (emit (ServoAngle 0) (emit (Print "Client connected") s)) H)
    as (s' & Hg & Htr & Hs).
  assert (Hh : handler E float_repr (S it) fuel s = OutOfFuel s').
  { unfold handler, bind, print, do, try_except_closed, sweep_sensor.
    cbn [sweep_loop]. unfold bind, sweep_iteration, bind, servo_set_angle, do.
    rewrite Hg. reflexivity. }
  exists s'. split; [exact Hh|]. split; [|exact Hs].
  apply emitted_app. rewrite Hh. cbn [state_of]. rewrite Htr.
  cbn [emit trace]. rewrite <- !app_assoc. reflexivity.
Qed.

Lemma handler_hangs_without_echo_witness :
  exists s' : state, handler silent_env demo_repr 10 7 initial_state = OutOfFuel s'.
Proof.
  destruct (handler_hangs_without_echo silent_env demo_repr 10 7 initial_state)
    as (s' & H & _).
  - intros i. reflexivity.
  - lia.
  - exists s'. exact H.
Defined.

(** X4: the reading of the failing iteration is lost.  When the send of
    iteration [n] raises (a disconnect or anything else), the servo has been
    set [n + 1] times, to the angles of the iterations 0 to [n], and a
    distance has been measured each time, but only the [n] readings of the
    iterations before were delivered. *)
Theorem failed_send_loses_last_reading
    (E : env) (float_repr : PyFloat.t -> string)
    (fuel iterations n : nat) (s : state) (e : exn) :
  echo_responds E fuel ->
  (forall i : nat, (i < n)%nat -> send_result E (sends s + i) = None) ->
  send_result E (sends s + n) = Some e ->
  (n < iterations)%nat ->
  servo_angles (emitted s (handler E float_repr iterations fuel s)) =
    map angle_at (seq 0 (S n)) /\
  exists ds : list PyFloat.t,
    List.length ds = n /\
    messages (emitted s (handler E float_repr iterations fuel s)) =
      map (fun ad => reading float_repr (fst ad) (snd ad))
        (combine (map angle_at (seq 0 n)) ds).
Proof.
  intros R Hok Hfail Hit.
  destruct (handler_until_failure E float_repr fuel n iterations s e
              R Hok Hfail Hit) as (ds & s' & Hlen & _ & Hrun & Htr).
  assert (He : exists tail,
             emitted s (handler E float_repr iterations fuel s) =
               Print "Client connected" :: iterations_events float_repr 0 ds
                 ++ ServoAngle (angle_at n) :: trigger_events ++ tail /\
             servo_angles tail = [] /\ messages tail = []).
  { destruct e as [|name].
    - exists [Print "Client disconnected"]. split; [|auto].
      apply emitted_app. rewrite Hrun. cbn [state_of emit trace]. rewrite Htr.
      repeat (rewrite <- app_assoc || rewrite <- app_comm_cons). reflexivity.
    - exists []. split; [|auto].
      apply emitted_app. rewrite Hrun. cbn [state_of]. rewrite Htr, app_nil_r.
      reflexivity. }
  destruct He as (tail & -> & Hsa & Hms). split.
  - change (servo_angles (Print "Client connected" :: ?l)) with (servo_angles l).
    rewrite servo_angles_app, servo_angles_iterations, Hlen.
    change (servo_angles (ServoAngle ?a :: ?l)) with (a :: servo_angles l).
    rewrite servo_angles_app, Hsa, seq_S, map_app. reflexivity.
  - exists ds. split; [exact Hlen|].
    change (messages (Print "Client connected" :: ?l)) with (messages l).
    rewrite messages_app, messages_iterations, Hlen.
    change (messages (ServoAngle ?a :: ?l)) with (messages l).
    rewrite messages_app, Hms. apply app_nil_r.
Qed.

Lemma failed_send_loses_last_reading_witness :
  servo_angles (emitted initial_state
                  (handler broken_env demo_repr 10 2 initial_state)) =
    map angle_at (seq 0 3).
Proof.
  apply (failed_send_loses_last_reading broken_env demo_repr 2 10 2
           initial_state (OtherException "OSError")).
  - apply alternating_echo_responds. intros i. reflexivity.
  - intros i Hi. simpl. destruct i as [|[|i]]; [reflexivity|reflexivity|lia].
  - reflexivity.
  - lia.
Defined.

(** X5: the sweep has period 72 and visits every position.  The angle and
    the direction repeat after 72 iterations, every angle is a multiple of
    the step, the direction is always 1 or -1, and every multiple of 5 in
    [0, 180] is the angle of an iteration on the way up and of one on the way
    down. *)
Theorem sweep_period_and_coverage :
  (forall n : nat, sweep_state (n + 72) = sweep_state n) /\
  (forall n : nat, angle_at n mod step = 0) /\
  (forall n : nat, snd (sweep_state n) = 1 \/ snd (sweep_state n) = -1) /\
  (forall a : Z, 0 <= a <= 180 -> a mod step = 0 ->
     (exists n : nat, (n <= 36)%nat /\ angle_at n = a) /\
     (exists n : nat, (36 <= n <= 72)%nat /\ angle_at n = a)).
Proof.
  split; [|split; [|split]].
  - intros n. rewrite !sweep_state_closed. unfold triangle_wave.
    change (180 / step) with 36. change (2 * 36) with 72.
    replace (Z.of_nat (n + 72)) with (Z.of_nat n + 1 * 72) by lia.
    rewrite Z.mod_add by lia. reflexivity.
  - intros n. rewrite angle_at_wave. unfold triangle_wave, step.
    change (180 / 5) with 36. change (2 * 36) with 72.
    destruct (_ <=? _); rewrite Z.mul_comm; apply Z.mod_mul; lia.
  - intros n. rewrite sweep_state_closed. cbn [snd].
    destruct (_ <? _); auto.
  - intros a Ha Hmod. unfold step in Hmod.
    assert (Hq : a = 5 * (a / 5)).
    { pose proof (Z.div_mod a 5 ltac:(lia)). lia. }
    assert (Hr : 0 <= a / 5 <= 36).
    { split; [apply Z.div_pos; lia|]. apply Z.div_le_upper_bound; lia. }
    split.
    + exists (Z.to_nat (a / 5)). split; [lia|].
      rewrite angle_at_wave. unfold triangle_wave, step.
      change (180 / 5) with 36. change (2 * 36) with 72.
      rewrite Z2Nat.id by lia. rewrite Z.mod_small by lia.
      destruct (Z.leb_spec (a / 5) 36); lia.
    + exists (Z.to_nat (72 - a / 5)). split; [lia|].
      rewrite angle_at_wave. unfold triangle_wave, step.
      change (180 / 5) with 36. change (2 * 36) with 72.
      rewrite Z2Nat.id by lia.
      destruct (Z.eq_dec (a / 5) 0) as [H0|H0].
      * rewrite H0. change ((72 - 0) mod 72) with 0. simpl. lia.
      * rewrite Z.mod_small by lia.
        destruct (Z.leb_spec (72 - a / 5) 36); lia.
Qed.

Lemma sweep_period_and_coverage_witness :
  (exists n : nat, (n <= 36)%nat /\ angle_at n = 90) /\
  (exists n : nat, (36 <= n <= 72)%nat /\ angle_at n = 90).
Proof.
  destruct sweep_period_and_coverage as (_ & _ & _ & H).
  apply (H 90); [lia|reflexivity].
Defined.


(** X7: a negative reading is passed on.  When the clock steps back between
    the two readings ([pulse_end <= pulse_start], both finite), the distance
    that [get_distance] returns is not clamped: it is zero or negative. *)
Theorem backward_clock_gives_nonpositive_distance
    (E : env) (fuel k j : nat) (s : state) :
  high_at E (reads s) k -> low_at E (reads s + k + 1) j ->
  (k < fuel)%nat -> (j < fuel)%nat ->
  let pulse_start := clock E (ticks s + k) in
  let pulse_end := clock E (ticks s + k + 1 + j) in
  PyFloat.valid pulse_start = true -> PyFloat.valid pulse_end = true ->
  PyFloat.is_finite pulse_start = true -> PyFloat.is_finite pulse_end = true ->
  PyFloat.leb pulse_end pulse_start = true ->
  exists (d : PyFloat.t) (s' : state),
    get_distance E fuel s = Returns d s' /\
    PyFloat.leb d PyFloat.zero = true.
Proof.
  intros Hk Hj Hkf Hjf pulse_start pulse_end Vs Ve Fs Fe Hle.
  eexists. eexists. split.
  - apply (get_distance_exact E fuel k j s Hk Hj Hkf Hjf).
  - apply nonpos_leb_zero. fold pulse_start pulse_end.
    apply distance_nonpos; assumption.
Qed.

Lemma backward_clock_gives_nonpositive_distance_witness :
  exists (d : PyFloat.t) (s' : state),
    get_distance backward_env 2 initial_state = Returns d s' /\
    PyFloat.leb d PyFloat.zero = true.
Proof.
  apply (backward_clock_gives_nonpositive_distance backward_env 2 0 0
           initial_state).
  - split; [intros i Hi; lia|discriminate].
  - split; [intros i Hi; lia|discriminate].
  - lia.
  - lia.
  - reflexivity.
  - reflexivity.
  - reflexivity.
  - reflexivity.
  - reflexivity.
Defined.



(** X9: with finite clock readings the distance is never NaN, whatever the
    order of the readings. *)
Theorem distance_is_never_nan
    (E : env) (fuel : nat) (s s' : state) (d : PyFloat.t) :
  (forall i : nat, (ticks s <= i)%nat -> PyFloat.is_finite (clock E i) = true) ->
  get_distance E fuel s = Returns d s' ->
  d <> S754_nan.
Proof.
  intros Hfin Hrun.
  pose proof (get_distance_inv E fuel s) as G. rewrite Hrun in G.
  destruct G as (_ & _ & i & j & Hi & Hij & ->).
  apply distance_not_nan; apply Hfin; lia.
Qed.

Lemma distance_is_never_nan_witness : PyFloat.lit 17.15 <> S754_nan.
Proof.
  apply (distance_is_never_nan ms_env 2 initial_state
           {| reads := 2; ticks := 2; sends := 0; trace := trigger_events |}).
  - intros i _. destruct i; reflexivity.
  - reflexivity.
Defined.
